(** * Per-caller durable call logs and the chat-completion logging relay

    A shallow embedding of [ai_call_logger.py] (class [CallLogger]) and of
    [apiChatCompletion.py] (the three pipeline sinks and
    [AsyncChatCompletion]), followed by the properties established for them.

    Conventions.
    - A Python [str] is a [string]; a character stands for one code point
      (code points below 256).
    - A method that can raise is a state transformer returning a [Result];
      [try ... except] is [try_except].
    - The operating system is part of the state: a table of path names, the
      contents of the inodes they name, the open file objects with their
      pending buffers, a fault oracle consulted by each system call that can
      fail, the clocks and the diagnostic output.
    - [print] to standard output can raise (the encoding of the channel lacks
      a character of the line, or the write fails): an oracle of its own says
      which prints of the run raise, and what. [print(..., file=sys.stderr)]
      does not raise: the error channel escapes what it cannot encode, and it
      is taken to be open. The calls to the [logging] module have no effect
      on what is studied here and are left out.
    - The directory tree is not part of the state: creating a directory
      either fails (by the oracle) or does nothing.
    - [await coro] runs the coroutine on the calling path;
      [asyncio.create_task(coro)] appends it to the queue of the event loop.
      No sink coroutine suspends while it holds its lock, so the locks never
      block and are left out. *)

From Stdlib Require Import ZArith Lia Ascii String List Bool.
From stdpp Require Import base numbers option list gmap strings.

Local Open Scope stdpp_scope.

(* ===================================================================== *)
(** ** Python strings                                                     *)
(* ===================================================================== *)

Module Py.

(** [s.replace(old, new)] for a one-character [old]. *)
Fixpoint replace (old : ascii) (new : string) (s : string) : string :=
  match s with
  | EmptyString => EmptyString
  | String c s' =>
      if Ascii.eqb c old then new +:+ replace old new s'
      else String c (replace old new s')
  end.

(** [s[:n]] for [0 <= n]. *)
Fixpoint take (n : nat) (s : string) : string :=
  match n, s with
  | S n', String c s' => String c (take n' s')
  | _, _ => EmptyString
  end.

(** [s[:-n]] for [0 < n]: all but the last [n] characters. *)
Definition drop_last (n : nat) (s : string) : string :=
  take (String.length s - n) s.

(** [str.isspace] on one code point below 256. *)
Definition isspace (c : ascii) : bool :=
  let n := nat_of_ascii c in
  ((9 <=? n) && (n <=? 13)) || ((28 <=? n) && (n <=? 32))
  || (n =? 133) || (n =? 160).

Fixpoint lstrip (s : string) : string :=
  match s with
  | EmptyString => EmptyString
  | String c s' => if isspace c then lstrip s' else s
  end.

Fixpoint rstrip (s : string) : string :=
  match s with
  | EmptyString => EmptyString
  | String c s' =>
      match rstrip s' with
      | EmptyString => if isspace c then EmptyString else String c EmptyString
      | r => String c r
      end
  end.

(** [s.strip()]. *)
Definition strip (s : string) : string := rstrip (lstrip s).

(** Truthiness of a [str]: the empty string is falsy. *)
Definition truthy (s : string) : bool :=
  match s with EmptyString => false | _ => true end.

(** [x or ""] for an optional string [x]. *)
Definition or_empty (x : option string) : string :=
  match x with
  | Some s => s
  | None => EmptyString
  end.

(** [sep.join(parts)]. *)
Definition join (sep : string) (parts : list string) : string :=
  String.concat sep parts.

(** [s.startswith(c)] and [s.endswith(c)] for a one-character [c]. *)
Definition startswith (c : ascii) (s : string) : bool :=
  match s with
  | String c' _ => Ascii.eqb c' c
  | EmptyString => false
  end.

Fixpoint endswith (c : ascii) (s : string) : bool :=
  match s with
  | EmptyString => false
  | String c' EmptyString => Ascii.eqb c' c
  | String _ s' => endswith c s'
  end.

(** [os.path.join(a, b)] of [posixpath]. *)
Definition path_join (a b : string) : string :=
  if startswith "/" b then b
  else if negb (truthy a) || endswith "/" a then a +:+ b
  else a +:+ "/" +:+ b.

(** Decimal digits of a natural number, most significant first. *)
Definition digit (n : N) : ascii := ascii_of_N (48 + n mod 10).

Fixpoint dec_aux (fuel : nat) (n : N) (acc : string) : string :=
  match fuel with
  | 0 => acc
  | S fuel' =>
      let acc' := String (digit n) acc in
      if (n / 10 =? 0)%N then acc' else dec_aux fuel' (n / 10)%N acc'
  end.

(** [str(n)] for [0 <= n]; a number has no more decimal digits than bits. *)
Definition dec (n : N) : string :=
  dec_aux (S (N.to_nat (N.log2 n))) n EmptyString.

Fixpoint repeat_char (c : ascii) (n : nat) : string :=
  match n with
  | 0 => EmptyString
  | S n' => String c (repeat_char c n')
  end.

(** Left padding to a minimal width, as [%0wd] and [%w...] do. *)
Definition lpad (c : ascii) (w : nat) (s : string) : string :=
  repeat_char c (w - String.length s) +:+ s.

Definition zfill (w : nat) (n : N) : string := lpad "0" w (dec n).

End Py.

(* ===================================================================== *)
(** ** Clock values                                                       *)
(* ===================================================================== *)

(** A [datetime.datetime] value. *)
Record DateTime := {
  dt_year : N; dt_month : N; dt_day : N;
  dt_hour : N; dt_minute : N; dt_second : N;
  dt_microsecond : N
}.

(** The ranges the [datetime] constructor enforces (a four-digit year is what
    [now()] returns on any host whose clock is past the year 999). *)
Definition valid_datetime (d : DateTime) : bool :=
  ((1000 <=? dt_year d) && (dt_year d <=? 9999)
   && (1 <=? dt_month d) && (dt_month d <=? 12)
   && (1 <=? dt_day d) && (dt_day d <=? 31)
   && (dt_hour d <=? 23) && (dt_minute d <=? 59) && (dt_second d <=? 59)
   && (dt_microsecond d <=? 999999))%N.

(** [d.strftime("%Y-%m-%d %H:%M:%S.%f")]. *)
Definition strftime (d : DateTime) : string :=
  Py.zfill 4 (dt_year d) +:+ "-" +:+ Py.zfill 2 (dt_month d) +:+ "-"
  +:+ Py.zfill 2 (dt_day d) +:+ " " +:+ Py.zfill 2 (dt_hour d) +:+ ":"
  +:+ Py.zfill 2 (dt_minute d) +:+ ":" +:+ Py.zfill 2 (dt_second d) +:+ "."
  +:+ Py.zfill 6 (dt_microsecond d).

(** [datetime.now().strftime("%Y-%m-%d %H:%M:%S.%f")[:-3]]. *)
Definition timestamp_ms (d : DateTime) : string := Py.drop_last 3 (strftime d).

(** [f"{elapsed:8.4f}"]. The perf counter is kept in units of 10^-4 s, the
    resolution the format prints, so no rounding is involved. *)
Definition format_8_4f (e : Z) : string :=
  let a := Z.to_N (Z.abs e) in
  Py.lpad " " 8
    ((if (e <? 0)%Z then "-" else "") +:+ Py.dec (a / 10000)%N +:+ "."
     +:+ Py.zfill 4 (a mod 10000)%N).

Definition nl : string := String "010" EmptyString.

(* ===================================================================== *)
(** ** Exceptions and the state of the process                            *)
(* ===================================================================== *)

(** The exception classes that occur; all derive from [Exception]. *)
Inductive Exn :=
| OSError | ValueError | KeyError | IndexError | TypeError | AttributeError
| UnicodeEncodeError
| RemoteError (detail : string).

Inductive Result (A : Type) : Type :=
| Ok (a : A)
| Raise (e : Exn).
Arguments Ok {A} a.
Arguments Raise {A} e.

(** *** The monad of a method body

    A body runs on a state of type [St] and either returns or raises. *)

Definition Eff (St A : Type) : Type := St -> Result A * St.

#[global] Instance Eff_ret St : MRet (Eff St) := fun A a s => (Ok a, s).

#[global] Instance Eff_bind St : MBind (Eff St) := fun A B k m s =>
  match m s with
  | (Ok a, s') => k a s'
  | (Raise e, s') => (Raise e, s')
  end.

Definition raise {St A} (e : Exn) : Eff St A := fun s => (Raise e, s).

Definition gets {St A} (f : St -> A) : Eff St A := fun s => (Ok (f s), s).

Definition modify {St} (f : St -> St) : Eff St unit := fun s => (Ok tt, f s).

(** [try: body  except Exception as e: handler e] (and the bare [except:],
    which differs only on exceptions outside [Exception]). *)
Definition try_except {St A} (body : Eff St A) (handler : Exn -> Eff St A)
    : Eff St A := fun s =>
  match body s with
  | (Ok a, s') => (Ok a, s')
  | (Raise e, s') => handler e s'
  end.

(** The lines [print] sends to the diagnostic channels, by call site. *)
Inductive Diag :=
| DiagAppendFailed (caller : string) (e : Exn)
| DiagSyncLoggingFailed (caller : string) (e : Exn)
| DiagFileEmpty (filename : string)
| DiagFileMissing (filename : string)
| DiagVerifyFailed (caller : string) (e : Exn)
| DiagRecreated (caller filename : string)
| DiagRecreateFailed (caller : string) (e : Exn)
| DiagCloseFailed (caller : string) (e : Exn).

(** An open text file object: the inode it appends to and the text written
    but not yet flushed. *)
Record FileObject := { fo_ino : nat; fo_buf : string }.

Record State := {
  (* the CallLogger instance *)
  log_directory : string;
  file_handles : gmap string nat;
  (* the file system: names, inode contents, open file objects *)
  fs_names : gmap string nat;
  fs_inodes : gmap nat string;
  open_files : gmap nat FileObject;
  next_id : nat;
  (* the environment: which system calls fail, what the clocks read *)
  fault : nat -> bool;
  syscalls : nat;
  wall_clock : nat -> DateTime;
  perf_clock : nat -> Z;
  clock_reads : nat;
  (* standard output: which prints raise, and what *)
  stdout_fault : nat -> option Exn;
  stdout_writes : nat;
  (* diagnostic output of both channels, oldest first *)
  stdio : list Diag
}.

Definition set_file_handles (f : gmap string nat -> gmap string nat) (s : State) : State :=
  {| log_directory := log_directory s; file_handles := f (file_handles s);
     fs_names := fs_names s; fs_inodes := fs_inodes s;
     open_files := open_files s; next_id := next_id s;
     fault := fault s; syscalls := syscalls s;
     wall_clock := wall_clock s; perf_clock := perf_clock s;
     clock_reads := clock_reads s;
     stdout_fault := stdout_fault s; stdout_writes := stdout_writes s;
     stdio := stdio s |}.

Definition set_fs_names (f : gmap string nat -> gmap string nat) (s : State) : State :=
  {| log_directory := log_directory s; file_handles := file_handles s;
     fs_names := f (fs_names s); fs_inodes := fs_inodes s;
     open_files := open_files s; next_id := next_id s;
     fault := fault s; syscalls := syscalls s;
     wall_clock := wall_clock s; perf_clock := perf_clock s;
     clock_reads := clock_reads s;
     stdout_fault := stdout_fault s; stdout_writes := stdout_writes s;
     stdio := stdio s |}.

Definition set_fs_inodes (f : gmap nat string -> gmap nat string) (s : State) : State :=
  {| log_directory := log_directory s; file_handles := file_handles s;
     fs_names := fs_names s; fs_inodes := f (fs_inodes s);
     open_files := open_files s; next_id := next_id s;
     fault := fault s; syscalls := syscalls s;
     wall_clock := wall_clock s; perf_clock := perf_clock s;
     clock_reads := clock_reads s;
     stdout_fault := stdout_fault s; stdout_writes := stdout_writes s;
     stdio := stdio s |}.

Definition set_open_files (f : gmap nat FileObject -> gmap nat FileObject) (s : State) : State :=
  {| log_directory := log_directory s; file_handles := file_handles s;
     fs_names := fs_names s; fs_inodes := fs_inodes s;
     open_files := f (open_files s); next_id := next_id s;
     fault := fault s; syscalls := syscalls s;
     wall_clock := wall_clock s; perf_clock := perf_clock s;
     clock_reads := clock_reads s;
     stdout_fault := stdout_fault s; stdout_writes := stdout_writes s;
     stdio := stdio s |}.

Definition set_next_id (f : nat -> nat) (s : State) : State :=
  {| log_directory := log_directory s; file_handles := file_handles s;
     fs_names := fs_names s; fs_inodes := fs_inodes s;
     open_files := open_files s; next_id := f (next_id s);
     fault := fault s; syscalls := syscalls s;
     wall_clock := wall_clock s; perf_clock := perf_clock s;
     clock_reads := clock_reads s;
     stdout_fault := stdout_fault s; stdout_writes := stdout_writes s;
     stdio := stdio s |}.

Definition set_syscalls (f : nat -> nat) (s : State) : State :=
  {| log_directory := log_directory s; file_handles := file_handles s;
     fs_names := fs_names s; fs_inodes := fs_inodes s;
     open_files := open_files s; next_id := next_id s;
     fault := fault s; syscalls := f (syscalls s);
     wall_clock := wall_clock s; perf_clock := perf_clock s;
     clock_reads := clock_reads s;
     stdout_fault := stdout_fault s; stdout_writes := stdout_writes s;
     stdio := stdio s |}.

Definition set_clock_reads (f : nat -> nat) (s : State) : State :=
  {| log_directory := log_directory s; file_handles := file_handles s;
     fs_names := fs_names s; fs_inodes := fs_inodes s;
     open_files := open_files s; next_id := next_id s;
     fault := fault s; syscalls := syscalls s;
     wall_clock := wall_clock s; perf_clock := perf_clock s;
     clock_reads := f (clock_reads s);
     stdout_fault := stdout_fault s; stdout_writes := stdout_writes s;
     stdio := stdio s |}.

Definition set_stdio (f : list Diag -> list Diag) (s : State) : State :=
  {| log_directory := log_directory s; file_handles := file_handles s;
     fs_names := fs_names s; fs_inodes := fs_inodes s;
     open_files := open_files s; next_id := next_id s;
     fault := fault s; syscalls := syscalls s;
     wall_clock := wall_clock s; perf_clock := perf_clock s;
     clock_reads := clock_reads s;
     stdout_fault := stdout_fault s; stdout_writes := stdout_writes s;
     stdio := f (stdio s) |}.

Definition set_stdout_fault (f : (nat -> option Exn) -> (nat -> option Exn))
    (s : State) : State :=
  {| log_directory := log_directory s; file_handles := file_handles s;
     fs_names := fs_names s; fs_inodes := fs_inodes s;
     open_files := open_files s; next_id := next_id s;
     fault := fault s; syscalls := syscalls s;
     wall_clock := wall_clock s; perf_clock := perf_clock s;
     clock_reads := clock_reads s;
     stdout_fault := f (stdout_fault s); stdout_writes := stdout_writes s;
     stdio := stdio s |}.

Definition set_stdout_writes (f : nat -> nat) (s : State) : State :=
  {| log_directory := log_directory s; file_handles := file_handles s;
     fs_names := fs_names s; fs_inodes := fs_inodes s;
     open_files := open_files s; next_id := next_id s;
     fault := fault s; syscalls := syscalls s;
     wall_clock := wall_clock s; perf_clock := perf_clock s;
     clock_reads := clock_reads s;
     stdout_fault := stdout_fault s; stdout_writes := f (stdout_writes s);
     stdio := stdio s |}.

Abbreviation M := (Eff State).

(** [print(...)], to standard output: [stdout_fault s n] says whether the
    [n]-th such print of the run raises, and what; a print that raises
    leaves no line. *)
Definition print (d : Diag) : M unit := fun s =>
  let s' := set_stdout_writes S s in
  match stdout_fault s (stdout_writes s) with
  | Some e => (Raise e, s')
  | None => (Ok tt, set_stdio (fun out => out ++ [d]) s')
  end.

(** [print(..., file=os.sys.stderr)]: one more line, on the error channel. *)
Definition print_stderr (d : Diag) : M unit :=
  modify (set_stdio (fun out => out ++ [d])).

(* ===================================================================== *)
(** ** System calls and file objects                                      *)
(* ===================================================================== *)

(** Every system call that can fail asks the oracle once: [fault s n] says
    whether the [n]-th such call of the run fails. *)
Definition fault_point : M unit := fun s =>
  let s' := set_syscalls S s in
  if fault s (syscalls s) then (Raise OSError, s') else (Ok tt, s').

(** [open(path, 'a', ...)]: binds the name to a new empty inode when the file
    does not exist and returns a new file object on the inode. *)
Definition py_open_append (path : string) : M nat :=
  fault_point;;
  known ← gets (fun s => fs_names s !! path);
  ino ← match known with
        | Some i => mret i
        | None =>
            i ← gets next_id;
            modify (set_next_id S);;
            modify (set_fs_inodes (insert i EmptyString));;
            modify (set_fs_names (insert path i));;
            mret i
        end;
  fd ← gets next_id;
  modify (set_next_id S);;
  modify (set_open_files (insert fd {| fo_ino := ino; fo_buf := EmptyString |}));;
  mret fd.

(** The file object behind a handle; a closed file raises [ValueError]. *)
Definition file_object (fd : nat) : M FileObject :=
  f ← gets (fun s => open_files s !! fd);
  match f with
  | Some fo => mret fo
  | None => raise ValueError
  end.

(** [f.write(data)]: the text joins the pending buffer. *)
Definition file_write (fd : nat) (data : string) : M unit :=
  fo ← file_object fd;
  fault_point;;
  modify (set_open_files (insert fd {| fo_ino := fo_ino fo; fo_buf := fo_buf fo +:+ data |})).

(** Hand the pending buffer of [fo] to the inode. *)
Definition commit (fd : nat) (fo : FileObject) : M unit :=
  modify (set_fs_inodes (fun t =>
            <[fo_ino fo := Py.or_empty (t !! fo_ino fo) +:+ fo_buf fo]> t));;
  modify (set_open_files (insert fd {| fo_ino := fo_ino fo; fo_buf := EmptyString |})).

(** [f.flush()]: on failure the buffer is kept. *)
Definition file_flush (fd : nat) : M unit :=
  fo ← file_object fd;
  fault_point;;
  commit fd fo.

(** [os.fsync(f.fileno())]. *)
Definition os_fsync (fd : nat) : M unit :=
  _ ← file_object fd;
  fault_point.

(** [f.close()]: flushes what is pending; the object is closed even when that
    flush fails. *)
Definition file_close (fd : nat) : M unit :=
  f ← gets (fun s => open_files s !! fd);
  match f with
  | None => mret tt
  | Some fo =>
      modify (set_open_files (delete fd));;
      match fo_buf fo with
      | EmptyString => mret tt
      | _ =>
          fault_point;;
          modify (set_fs_inodes (fun t =>
                    <[fo_ino fo := Py.or_empty (t !! fo_ino fo) +:+ fo_buf fo]> t))
      end
  end.

(** Leaving a [with] block closes the file, whether the block raised or not. *)
Definition closing {A} (fd : nat) (block : M A) : M A := fun s =>
  match block s with
  | (Ok a, s') => (file_close fd;; mret a) s'
  | (Raise e, s') => (file_close fd;; raise e) s'
  end.

(** [with open(path, 'a', ...) as f: body f]. *)
Definition with_open_append {A} (path : string) (body : nat -> M A) : M A :=
  fd ← py_open_append path;
  closing fd (body fd).

(** [os.path.exists(path)] never raises. *)
Definition os_path_exists (path : string) : M bool :=
  gets (fun s => match fs_names s !! path with Some _ => true | None => false end).

(** [os.path.getsize(path)]. *)
Definition os_path_getsize (path : string) : M nat :=
  fault_point;;
  i ← gets (fun s => fs_names s !! path);
  match i with
  | None => raise OSError
  | Some ino => gets (fun s => String.length (Py.or_empty (fs_inodes s !! ino)))
  end.

(** [os.makedirs(os.path.dirname(filename), exist_ok=True)]. The directory
    tree is not part of the state: the call either fails or does nothing. *)
Definition os_makedirs_dirname (filename : string) : M unit := fault_point.

(** [datetime.now()] and [time.perf_counter()]. *)
Definition datetime_now : M DateTime := fun s =>
  (Ok (wall_clock s (clock_reads s)), set_clock_reads S s).

Definition perf_counter : M Z := fun s =>
  (Ok (perf_clock s (clock_reads s)), set_clock_reads S s).

(** Something outside the process removes the name of a file. *)
Definition unlink (path : string) (s : State) : State :=
  set_fs_names (delete path) s.

(** The text of the file a path names, if any. *)
Definition read_file (s : State) (path : string) : option string :=
  i ← fs_names s !! path; fs_inodes s !! i.

(* ===================================================================== *)
(** ** class CallLogger                                                   *)
(* ===================================================================== *)

(** [_get_log_filename]: the caller number with [+], [-], space and the two
    parentheses replaced by nothing, [".txt"] appended, joined to the log
    directory. *)
Definition safe_number (caller_number : string) : string :=
  Py.replace ")" "" (Py.replace "(" "" (Py.replace " " ""
    (Py.replace "-" "" (Py.replace "+" "" caller_number)))).

Definition _get_log_filename (s : State) (caller_number : string) : string :=
  Py.path_join (log_directory s) (safe_number caller_number +:+ ".txt").

(** [_get_file_handle]: the cache is looked up, and filled, under the caller
    number as given. *)
Definition _get_file_handle (caller_number : string) : M nat :=
  cached ← gets (fun s => file_handles s !! caller_number);
  match cached with
  | Some _ => mret tt
  | None =>
      filename ← gets (fun s => _get_log_filename s caller_number);
      fd ← py_open_append filename;
      modify (set_file_handles (insert caller_number fd))
  end;;
  h ← gets (fun s => file_handles s !! caller_number);
  match h with
  | Some fd => mret fd
  | None => raise KeyError
  end.

(** A log line: [f"[{timestamp}] {log_data}\n"]. *)
Definition stamped_line (now : DateTime) (log_data : string) : string :=
  "[" +:+ timestamp_ms now +:+ "] " +:+ log_data +:+ nl.

(** [_recreate_log_entry]: writes through a file object of its own and
    reports its own failure; the two reports go to standard output. *)
Definition _recreate_log_entry (caller_number message : string) : M unit :=
  try_except
    (filename ← gets (fun s => _get_log_filename s caller_number);
     os_makedirs_dirname filename;;
     now ← datetime_now;
     let log_entry := stamped_line now message in
     with_open_append filename (fun f =>
       file_write f log_entry;;
       file_flush f;;
       os_fsync f);;
     print (DiagRecreated caller_number filename))
    (fun e => print (DiagRecreateFailed caller_number e)).

(** [append_log]: the [try] block, then the method with its handler. *)
Definition append_log_try (caller_number log_data : string)
    (include_timestamp : bool) : M unit :=
  file_handle ← _get_file_handle caller_number;
  log_entry ← (if include_timestamp
               then now ← datetime_now; mret (stamped_line now log_data)
               else mret (log_data +:+ nl));
  file_write file_handle log_entry;;
  file_flush file_handle;;
  try_except (os_fsync file_handle) (fun _ => mret tt).

Definition append_log (caller_number log_data : string)
    (include_timestamp : bool) : M unit :=
  try_except
    (append_log_try caller_number log_data include_timestamp)
    (fun e =>
       print_stderr (DiagAppendFailed caller_number e);;
       try_except (_recreate_log_entry caller_number log_data)
                  (fun _ => mret tt)).

(** [_verify_log_written]. *)
Definition _verify_log_written (caller_number message : string) : M bool :=
  try_except
    (filename ← gets (fun s => _get_log_filename s caller_number);
     cached ← gets (fun s => file_handles s !! caller_number);
     match cached with
     | Some fd => file_flush fd;; os_fsync fd
     | None => mret tt
     end;;
     present ← os_path_exists filename;
     if (present : bool) then
       size ← os_path_getsize filename;
       if 0 <? size then mret true
       else
         print (DiagFileEmpty filename);;
         _recreate_log_entry caller_number message;;
         mret true
     else
       print (DiagFileMissing filename);;
       _recreate_log_entry caller_number message;;
       mret true)
    (fun e =>
       print (DiagVerifyFailed caller_number e);;
       try_except (_recreate_log_entry caller_number message;; mret true)
                  (fun _ => mret false)).

(** The elapsed-time annotation: [f"[{elapsed:8.4f}s] {message}"]. *)
Definition elapsed_prefix (elapsed : Z) : string :=
  "[" +:+ format_8_4f elapsed +:+ "s] ".

(** [log_event]. The nested coroutine [_async_log] is defined in the source
    but never called; what runs is the synchronous block at the end. *)
Definition log_event (caller_number message : string)
    (global_start_time : option Z) : M unit :=
  log_data ← match global_start_time with
             | Some t0 =>
                 t ← perf_counter;
                 mret (elapsed_prefix (t - t0) +:+ message)
             | None => mret message
             end;
  try_except
    (append_log caller_number log_data true;;
     _verify_log_written caller_number message;;
     mret tt)
    (fun e => print_stderr (DiagSyncLoggingFailed caller_number e)).

(** [close_caller_log]. *)
Definition close_caller_log (caller_number : string) : M unit :=
  cached ← gets (fun s => file_handles s !! caller_number);
  match cached with
  | Some fd =>
      try_except
        (file_close fd;;
         modify (set_file_handles (delete caller_number)))
        (fun e => print_stderr (DiagCloseFailed caller_number e))
  | None => mret tt
  end.

(** The process right after [CallLogger(log_directory)] returned, in an empty
    directory and with a standard output that takes every line. *)
Definition new_logger (dir : string) (flt : nat -> bool)
    (wall : nat -> DateTime) (perf : nat -> Z) : State :=
  {| log_directory := dir; file_handles := ∅;
     fs_names := ∅; fs_inodes := ∅; open_files := ∅; next_id := 0;
     fault := flt; syscalls := 0;
     wall_clock := wall; perf_clock := perf; clock_reads := 0;
     stdout_fault := fun _ => None; stdout_writes := 0;
     stdio := [] |}.

(* ===================================================================== *)
(** ** The logging pipeline of apiChatCompletion.py                       *)
(* ===================================================================== *)

(** *** The remote generation service, as the code sees it *)

(** A streamed chunk: [choices[i].delta.content] for each choice. *)
Record Chunk := { chunk_choices : list (option string) }.

(** How iteration over an established stream ends. *)
Inductive StreamEnd :=
| Exhausted
| Broken (e : Exn).

Record Stream := { stream_chunks : list Chunk; stream_end : StreamEnd }.

(** A completion: for each choice its [message] (which may be missing) and in
    it the [content] (which may be [None]). *)
Record Completion := { completion_choices : list (option (option string)) }.

(** *** Records and tasks *)

Record TurnRecord := {
  tr_timestamp : Z;
  tr_model : string;
  tr_streaming : bool;
  tr_user_phone_number : option string;
  tr_messages : list (gmap string string);
  tr_response : string;
  tr_response_chars : nat
}.

(** The coroutines handed to [asyncio.create_task]. *)
Inductive Task :=
| TaskChunkLog (seq : nat) (chunk_text : string) (model : string)
    (user_phone_number : option string)
| TaskTurnLog (messages : list (gmap string string)) (response : option string)
    (streaming : bool) (model : string) (user_phone_number : option string).

(** The messages the relay passes to [call_logger.log_event]. *)
Inductive LogMsg :=
| MsgCompletionStart (model : string)
| MsgCompletionParams
| MsgCompletionDone (completion_time : Z)
| MsgResponseLength (response_length : nat)
| MsgCompletionFailed (completion_time : Z) (e : Exn)
| MsgStreamStart (model : string)
| MsgStreamCreationFailed (e : Exn)
| MsgStreamDone (completion_time : Z)
| MsgStreamFailed (completion_time : Z) (e : Exn).

(** The state the pipeline works on: the three sink files (one element per
    line written), the tasks created and not yet run, the fragments the
    consumer of a stream received, the calls made to the call logger, and the
    environment. *)
Record Relay := {
  turn_log : list TurnRecord;
  chunk_log : list string;
  success_log : list string;
  pending : list Task;
  yielded : list string;
  logged : list (option string * LogMsg);
  sink_fault : nat -> bool;
  sink_writes : nat;
  utc_clock : nat -> DateTime;
  loop_clock : nat -> Z;
  time_reads : nat
}.

Definition set_turn_log (f : list TurnRecord -> list TurnRecord) (r : Relay) : Relay :=
  {| turn_log := f (turn_log r); chunk_log := chunk_log r;
     success_log := success_log r; pending := pending r;
     yielded := yielded r; logged := logged r;
     sink_fault := sink_fault r; sink_writes := sink_writes r;
     utc_clock := utc_clock r; loop_clock := loop_clock r;
     time_reads := time_reads r |}.

Definition set_chunk_log (f : list string -> list string) (r : Relay) : Relay :=
  {| turn_log := turn_log r; chunk_log := f (chunk_log r);
     success_log := success_log r; pending := pending r;
     yielded := yielded r; logged := logged r;
     sink_fault := sink_fault r; sink_writes := sink_writes r;
     utc_clock := utc_clock r; loop_clock := loop_clock r;
     time_reads := time_reads r |}.

Definition set_success_log (f : list string -> list string) (r : Relay) : Relay :=
  {| turn_log := turn_log r; chunk_log := chunk_log r;
     success_log := f (success_log r); pending := pending r;
     yielded := yielded r; logged := logged r;
     sink_fault := sink_fault r; sink_writes := sink_writes r;
     utc_clock := utc_clock r; loop_clock := loop_clock r;
     time_reads := time_reads r |}.

Definition set_pending (f : list Task -> list Task) (r : Relay) : Relay :=
  {| turn_log := turn_log r; chunk_log := chunk_log r;
     success_log := success_log r; pending := f (pending r);
     yielded := yielded r; logged := logged r;
     sink_fault := sink_fault r; sink_writes := sink_writes r;
     utc_clock := utc_clock r; loop_clock := loop_clock r;
     time_reads := time_reads r |}.

Definition set_yielded (f : list string -> list string) (r : Relay) : Relay :=
  {| turn_log := turn_log r; chunk_log := chunk_log r;
     success_log := success_log r; pending := pending r;
     yielded := f (yielded r); logged := logged r;
     sink_fault := sink_fault r; sink_writes := sink_writes r;
     utc_clock := utc_clock r; loop_clock := loop_clock r;
     time_reads := time_reads r |}.

Definition set_logged (f : list (option string * LogMsg) -> list (option string * LogMsg))
    (r : Relay) : Relay :=
  {| turn_log := turn_log r; chunk_log := chunk_log r;
     success_log := success_log r; pending := pending r;
     yielded := yielded r; logged := f (logged r);
     sink_fault := sink_fault r; sink_writes := sink_writes r;
     utc_clock := utc_clock r; loop_clock := loop_clock r;
     time_reads := time_reads r |}.

Definition set_sink_writes (f : nat -> nat) (r : Relay) : Relay :=
  {| turn_log := turn_log r; chunk_log := chunk_log r;
     success_log := success_log r; pending := pending r;
     yielded := yielded r; logged := logged r;
     sink_fault := sink_fault r; sink_writes := f (sink_writes r);
     utc_clock := utc_clock r; loop_clock := loop_clock r;
     time_reads := time_reads r |}.

Definition set_time_reads (f : nat -> nat) (r : Relay) : Relay :=
  {| turn_log := turn_log r; chunk_log := chunk_log r;
     success_log := success_log r; pending := pending r;
     yielded := yielded r; logged := logged r;
     sink_fault := sink_fault r; sink_writes := sink_writes r;
     utc_clock := utc_clock r; loop_clock := loop_clock r;
     time_reads := f (time_reads r) |}.

Abbreviation R := (Eff Relay).

(** *** Primitives *)

(** [with open(SINK, "a", encoding="utf-8") as f: f.write(line)]: the whole
    write either fails or adds the line. *)
Definition sink_fault_point : R unit := fun r =>
  let r' := set_sink_writes S r in
  if sink_fault r (sink_writes r) then (Raise OSError, r') else (Ok tt, r').

(** [asyncio.get_event_loop().time()] and [datetime.utcnow()]. *)
Definition loop_time : R Z := fun r =>
  (Ok (loop_clock r (time_reads r)), set_time_reads S r).

Definition datetime_utcnow : R DateTime := fun r =>
  (Ok (utc_clock r (time_reads r)), set_time_reads S r).

(** [asyncio.create_task(coro)]: the coroutine is queued on the running loop
    and the caller goes on; it runs when the loop next gets control. *)
Definition create_task (t : Task) : R unit :=
  modify (set_pending (fun q => q ++ [t])).

(** [yield fragment]. *)
Definition yield_ (fragment : string) : R unit :=
  modify (set_yielded (fun ys => ys ++ [fragment])).

(** [call_logger.log_event(user_phone_number, msg)]. On a [CallLogger] it
    returns without raising; on [None] the attribute lookup raises. *)
Inductive LoggerRef := TheCallLogger.

Definition call_log_event (call_logger : option LoggerRef)
    (user_phone_number : option string) (msg : LogMsg) : R unit :=
  match call_logger with
  | Some _ => modify (set_logged (fun l => l ++ [(user_phone_number, msg)]))
  | None => raise AttributeError
  end.

(** [if call_logger: call_logger.log_event(...)]. *)
Definition if_logger_log_event (call_logger : option LoggerRef)
    (user_phone_number : option string) (msg : LogMsg) : R unit :=
  match call_logger with
  | Some _ => call_log_event call_logger user_phone_number msg
  | None => mret tt
  end.

(** *** The three sinks *)

(** [_append_turn_log]. *)
Definition _append_turn_log (messages : list (gmap string string))
    (response : option string) (streaming : bool) (model : string)
    (user_phone_number : option string) : R unit :=
  try_except
    (now ← loop_time;
     let record :=
       {| tr_timestamp := now; tr_model := model; tr_streaming := streaming;
          tr_user_phone_number := user_phone_number; tr_messages := messages;
          tr_response := Py.or_empty response;
          tr_response_chars := String.length (Py.or_empty response) |} in
     sink_fault_point;;
     modify (set_turn_log (fun l => l ++ [record])))
    (fun _ => mret tt).

(** [text.replace("\n", " ").replace("\r", " ").strip()]. *)
Definition flatten_text (text : string) : string :=
  Py.strip (Py.replace "013" " " (Py.replace "010" " " text)).

(** [_append_chunk_log]. *)
Definition chunk_line (seq : nat) (chunk_text model : string)
    (user_phone_number : option string) : string :=
  "model=" +:+ model +:+ " | user=" +:+ Py.or_empty user_phone_number
  +:+ " | seq=" +:+ Py.dec (N.of_nat seq) +:+ " | "
  +:+ flatten_text chunk_text +:+ nl.

Definition _append_chunk_log (seq : nat) (chunk_text model : string)
    (user_phone_number : option string) : R unit :=
  try_except
    (let line := chunk_line seq chunk_text model user_phone_number in
     sink_fault_point;;
     modify (set_chunk_log (fun l => l ++ [line])))
    (fun _ => mret tt).

(** [f"{role}:{safe_content}"] for one message of the request. *)
Definition message_part (m : gmap string string) : string :=
  let role := Py.strip (Py.or_empty (m !! "role")) in
  let content := Py.or_empty (m !! "content") in
  role +:+ ":" +:+ flatten_text content.

(** The [row] of [_append_success_log]: the messages flattened and joined,
    cut when longer than 1000 characters. (The inner [try] of the source
    guards against messages that are not dictionaries of strings, which the
    type of [messages] excludes here.) *)
Definition success_row (messages : option (list (gmap string string))) : string :=
  match messages with
  | None | Some [] => EmptyString
  | Some ms =>
      let row := Py.join " || " (map message_part ms) in
      if 1000 <? String.length row then Py.take 1000 row +:+ "..." else row
  end.

(** [d.isoformat()]. *)
Definition isoformat (d : DateTime) : string :=
  Py.zfill 4 (dt_year d) +:+ "-" +:+ Py.zfill 2 (dt_month d) +:+ "-"
  +:+ Py.zfill 2 (dt_day d) +:+ "T" +:+ Py.zfill 2 (dt_hour d) +:+ ":"
  +:+ Py.zfill 2 (dt_minute d) +:+ ":" +:+ Py.zfill 2 (dt_second d)
  +:+ (if (dt_microsecond d =? 0)%N then EmptyString
       else "." +:+ Py.zfill 6 (dt_microsecond d)).

Definition str_bool (b : bool) : string := if b then "True" else "False".

Definition success_line (ts : DateTime) (messages : option (list (gmap string string)))
    (streaming : bool) (model : string) (user_phone_number : option string) : string :=
  "[" +:+ isoformat ts +:+ "Z] HTTP 200 | model=" +:+ model +:+ " | user="
  +:+ Py.or_empty user_phone_number +:+ " | streaming=" +:+ str_bool streaming
  +:+ " -> " +:+ success_row messages +:+ nl.

(** [_append_success_log]. *)
Definition _append_success_log (messages : option (list (gmap string string)))
    (streaming : bool) (model : string) (user_phone_number : option string)
    : R unit :=
  try_except
    (ts ← datetime_utcnow;
     let line := success_line ts messages streaming model user_phone_number in
     sink_fault_point;;
     modify (set_success_log (fun l => l ++ [line])))
    (fun _ => mret tt).

(** What the event loop does with a queued task, and with the whole queue
    (first created, first run; no sink coroutine creates a task). *)
Definition run_task (t : Task) : R unit :=
  match t with
  | TaskChunkLog seq chunk_text model user =>
      _append_chunk_log seq chunk_text model user
  | TaskTurnLog messages response streaming model user =>
      _append_turn_log messages response streaming model user
  end.

Definition run_pending (r : Relay) : Relay :=
  foldl (fun r' t => snd (run_task t r')) (set_pending (fun _ => []) r) (pending r).

(** *** class AsyncChatCompletion *)

(** [await self.client.chat.completions.create(...)]: the service either
    returns or raises; which, and what it returns, is its own business. *)
Definition remote_request {A} (remote : Result A) : R A :=
  match remote with
  | Ok a => mret a
  | Raise e => raise e
  end.

(** [create_completion]. [start_time] is the first assignment of the [try]
    block and cannot fail, so the handler always finds it among the locals. *)
Definition create_completion (model : string) (remote : Result Completion)
    (messages : list (gmap string string)) (call_logger : option LoggerRef)
    (user_phone_number : option string) : R Completion :=
  start_time ← loop_time;
  try_except
    (call_log_event call_logger user_phone_number (MsgCompletionStart model);;
     call_log_event call_logger user_phone_number MsgCompletionParams;;
     completion ← remote_request remote;
     end_time ← loop_time;
     let completion_time := (end_time - start_time)%Z in
     _append_success_log (Some messages) false model user_phone_number;;
     call_log_event call_logger user_phone_number (MsgCompletionDone completion_time);;
     match completion_choices completion with
     | Some content :: _ =>
         match content with
         | Some text =>
             call_log_event call_logger user_phone_number
               (MsgResponseLength (String.length text))
         | None => raise TypeError
         end
     | _ => mret tt
     end;;
     mret completion)
    (fun e =>
       now ← loop_time;
       let completion_time := (now - start_time)%Z in
       call_log_event call_logger user_phone_number
         (MsgCompletionFailed completion_time e);;
       raise e).

(** [get_response_content]. *)
Definition get_response_content (model : string) (remote : Result Completion)
    (messages : list (gmap string string)) (call_logger : option LoggerRef)
    (user_phone_number : option string) : R (option string) :=
  completion ← create_completion model remote messages call_logger user_phone_number;
  content ← match completion_choices completion with
            | [] => raise IndexError
            | None :: _ => raise AttributeError
            | Some content :: _ => mret content
            end;
  try_except
    (create_task (TaskTurnLog messages content false model user_phone_number))
    (fun _ => mret tt);;
  mret content.

(** [create_stream_completion]. *)
Definition create_stream_completion (model : string) (remote : Result Stream)
    (messages : list (gmap string string)) (call_logger : option LoggerRef)
    (user_phone_number : option string) : R Stream :=
  try_except
    (if_logger_log_event call_logger user_phone_number (MsgStreamStart model);;
     remote_request remote)
    (fun e =>
       if_logger_log_event call_logger user_phone_number (MsgStreamCreationFailed e);;
       raise e).

(** [chunk.choices[0].delta.content]. *)
Definition delta_content (chunk : Chunk) : R (option string) :=
  match chunk_choices chunk with
  | [] => raise IndexError
  | content :: _ => mret content
  end.

(** The [async for] loop of [get_response_stream], with its two loop
    variables; it returns [full] when the stream is exhausted. *)
Fixpoint stream_loop (model : string) (user_phone_number : option string)
    (chunks : list Chunk) (ending : StreamEnd) (seq : nat) (full : string)
    : R string :=
  match chunks with
  | [] =>
      match ending with
      | Exhausted => mret full
      | Broken e => raise e
      end
  | chunk :: rest =>
      content ← delta_content chunk;
      if Py.truthy (Py.or_empty content) then
        let text := Py.or_empty content in
        try_except
          (create_task (TaskChunkLog seq text model user_phone_number))
          (fun _ => mret tt);;
        yield_ text;;
        stream_loop model user_phone_number rest ending (S seq) (full +:+ text)
      else
        stream_loop model user_phone_number rest ending seq full
  end.

Definition failure_sentinel : string :=
  "An error occurred while generating the response.".

(** [get_response_stream], run until the generator is exhausted. *)
Definition get_response_stream (model : string) (remote : Result Stream)
    (messages : list (gmap string string)) (call_logger : option LoggerRef)
    (user_phone_number : option string) : R unit :=
  start_time ← loop_time;
  try_except
    (stream ← create_stream_completion model remote messages call_logger
                user_phone_number;
     _append_success_log (Some messages) true model user_phone_number;;
     full ← stream_loop model user_phone_number (stream_chunks stream)
              (stream_end stream) 0 EmptyString;
     end_time ← loop_time;
     let completion_time := (end_time - start_time)%Z in
     if_logger_log_event call_logger user_phone_number (MsgStreamDone completion_time);;
     try_except
       (create_task (TaskTurnLog messages (Some full) true model user_phone_number))
       (fun _ => mret tt))
    (fun e =>
       now ← loop_time;
       let completion_time := (now - start_time)%Z in
       if_logger_log_event call_logger user_phone_number
         (MsgStreamFailed completion_time e);;
       yield_ failure_sentinel).

(** A process that has made no call yet. *)
Definition new_relay (flt : nat -> bool) (utc : nat -> DateTime)
    (loop : nat -> Z) : Relay :=
  {| turn_log := []; chunk_log := []; success_log := []; pending := [];
     yielded := []; logged := [];
     sink_fault := flt; sink_writes := 0;
     utc_clock := utc; loop_clock := loop; time_reads := 0 |}.

(* ===================================================================== *)
(** ** Vocabulary of the properties                                       *)
(* ===================================================================== *)

(** The characters a session key loses when it becomes a file name. *)
Definition stripped_char (c : ascii) : bool :=
  Ascii.eqb c "+" || Ascii.eqb c "-" || Ascii.eqb c " "
  || Ascii.eqb c "(" || Ascii.eqb c ")".

Fixpoint sfilter (keep : ascii -> bool) (s : string) : string :=
  match s with
  | EmptyString => EmptyString
  | String c s' => if keep c then String c (sfilter keep s') else sfilter keep s'
  end.

(** The normalized token of a session key, in the words of the data model:
    the key with exactly the stripped characters left out. *)
Definition normalized_token (key : string) : string :=
  sfilter (fun c => negb (stripped_char c)) key.

(** Shapes of text: a digit, or a given character. *)
Inductive Pat :=
| PDigit
| PLit (c : ascii).

Definition is_digit (c : ascii) : bool :=
  let n := nat_of_ascii c in (48 <=? n) && (n <=? 57).

Fixpoint matches (p : list Pat) (s : string) : bool :=
  match p, s with
  | [], EmptyString => true
  | PDigit :: p', String c s' => is_digit c && matches p' s'
  | PLit c' :: p', String c s' => Ascii.eqb c c' && matches p' s'
  | _, _ => false
  end.


(** [YYYY-MM-DD HH:MM:SS.mmm] *)
Definition timestamp_pattern : list Pat :=
  [PDigit; PDigit; PDigit; PDigit; PLit "-"; PDigit; PDigit; PLit "-";
   PDigit; PDigit; PLit " "; PDigit; PDigit; PLit ":"; PDigit; PDigit;
   PLit ":"; PDigit; PDigit; PLit "."; PDigit; PDigit; PDigit].


Fixpoint all_digits (s : string) : bool :=
  match s with
  | EmptyString => true
  | String c s' => is_digit c && all_digits s'
  end.

(** The handle cached for a key, if there is one, is open on the file the
    key's name designates and has nothing pending. *)
Definition cache_coherent (s : State) (key : string) : Prop :=
  match file_handles s !! key with
  | None => True
  | Some fd =>
      exists i, open_files s !! fd = Some {| fo_ino := i; fo_buf := EmptyString |}
                /\ fs_names s !! _get_log_filename s key = Some i
  end.

(** No print to standard output raises. *)
Definition stdout_quiet (s : State) : Prop := forall n, stdout_fault s n = None.

(** No system call of the run fails. *)
Definition quiet (s : State) : Prop := forall n, fault s n = false.


(** The handle cached for a key, if there is one, is open, has nothing
    pending, and its inode holds some text. *)
Definition handle_idle (s : State) (key : string) : Prop :=
  match file_handles s !! key with
  | None => True
  | Some fd =>
      exists i c, open_files s !! fd = Some {| fo_ino := i; fo_buf := EmptyString |}
                  /\ fs_inodes s !! i = Some c
  end.

(** The file is missing, or it is there and holds nothing. *)
Definition missing_or_empty (s : State) (path : string) : Prop :=
  match fs_names s !! path with
  | None => True
  | Some j => Py.or_empty (fs_inodes s !! j) = EmptyString
  end.

(** Every reading of the wall clock is a date the constructor accepts. *)
Definition valid_clock (s : State) : Prop :=
  forall n, valid_datetime (wall_clock s n) = true.

(** *** Sample inputs *)

Definition sample_time : DateTime :=
  {| dt_year := 2026; dt_month := 1; dt_day := 2; dt_hour := 3;
     dt_minute := 4; dt_second := 5; dt_microsecond := 678901 |}.

Definition sample_logger : State :=
  new_logger "call-logs" (fun _ => false) (fun _ => sample_time)
    (fun n => (12 * Z.of_nat n)%Z).


(** What [log_event] hands to [append_log], and the clock reading at which
    [append_log] takes its time stamp. *)
Definition log_data_of (s : State) (message : string) (st : option Z) : string :=
  match st with
  | Some t0 => elapsed_prefix (perf_clock s (clock_reads s) - t0) +:+ message
  | None => message
  end.

Definition reads_before_append (s : State) (st : option Z) : nat :=
  match st with
  | Some _ => S (clock_reads s)
  | None => clock_reads s
  end.

(** A host on which [os.fsync] fails: system calls 3 and 5 of the run are the
    [fsync] of [append_log] and the [fsync] of [_verify_log_written]. *)
Definition no_fsync_logger : State :=
  new_logger "call-logs" (fun n => (n =? 3) || (n =? 5))
    (fun _ => sample_time) (fun n => (12 * Z.of_nat n)%Z).

(** *** Vocabulary for the relay *)

(** The messages of a request flattened and joined, before any cut. *)
Definition flattened_rows (ms : list (gmap string string)) : string :=
  Py.join " || " (map message_part ms).

(** What a consumer gets out of the chunks of a stream: the texts of the
    fragments that carry text, in order, and the error, if any, that ends the
    iteration (a chunk without choices, or the stream breaking). *)
Fixpoint stream_outcome (chunks : list Chunk) (ending : StreamEnd)
    : list string * option Exn :=
  match chunks with
  | [] =>
      ([], match ending with Exhausted => None | Broken e => Some e end)
  | chunk :: rest =>
      match chunk_choices chunk with
      | [] => ([], Some IndexError)
      | content :: _ =>
          let (texts, err) := stream_outcome rest ending in
          (if Py.truthy (Py.or_empty content)
           then Py.or_empty content :: texts else texts, err)
      end
  end.

(** The chunk-log tasks of consecutive fragments, numbered from [seq]. *)
Fixpoint chunk_tasks (model : string) (user : option string) (seq : nat)
    (texts : list string) : list Task :=
  match texts with
  | [] => []
  | text :: rest =>
      TaskChunkLog seq text model user :: chunk_tasks model user (S seq) rest
  end.

(** [r] after some fragments were yielded and some tasks created. *)
Definition relayed (r : Relay) (texts : list string) (tasks : list Task) : Relay :=
  set_yielded (fun ys => ys ++ texts) (set_pending (fun q => q ++ tasks) r).

(** The text of all fragments together. *)
Definition full_text (texts : list string) : string := String.concat "" texts.

(** The text a chunk carries, and the non-empty fragments of a stream in the
    order of emission. *)
Definition fragment_text (c : Chunk) : string :=
  match chunk_choices c with
  | content :: _ => Py.or_empty content
  | [] => EmptyString
  end.

Definition fragments (st : Stream) : list string :=
  List.filter Py.truthy (map fragment_text (stream_chunks st)).

(** The stream delivers well-formed chunks until it is exhausted. *)
Definition completes (st : Stream) : Prop :=
  stream_end st = Exhausted
  /\ Forall (fun c => chunk_choices c <> []) (stream_chunks st).

(** *** Sample inputs for the relay *)

Definition sample_relay : Relay :=
  new_relay (fun _ => false) (fun _ => sample_time) (fun n => Z.of_nat n).

Definition sample_messages : list (gmap string string) :=
  [ {[ "role" := "user"; "content" := "hi" ]} ].

Definition text_chunk (text : option string) : Chunk :=
  {| chunk_choices := [text] |}.

(** The stream of the specification's scenario. *)
Definition hello_stream : Stream :=
  {| stream_chunks := [text_chunk (Some "Hel"); text_chunk (Some "lo");
                       text_chunk (Some ""); text_chunk (Some " world")];
     stream_end := Exhausted |}.

(** A stream that delivers one fragment and then breaks. *)
Definition broken_stream : Stream :=
  {| stream_chunks := [text_chunk (Some "Hel")];
     stream_end := Broken (RemoteError "connection reset") |}.

(** A request of one message whose content has 1001 characters. *)
Definition long_messages : list (gmap string string) :=
  [ {[ "role" := "user"; "content" := Py.repeat_char "a" 1001 ]} ].

Definition sample_completion : Completion :=
  {| completion_choices := [Some (Some "Hello")] |}.

(* ===================================================================== *)
(** ** More of the source                                                 *)
(* ===================================================================== *)

(** [log_file_exists_and_has_content]: [and] evaluates the size only when
    the file exists. *)
Definition log_file_exists_and_has_content (caller_number : string) : M bool :=
  try_except
    (filename ← gets (fun s => _get_log_filename s caller_number);
     present ← os_path_exists filename;
     if (present : bool) then
       size ← os_path_getsize filename;
       mret (0 <? size)
     else mret false)
    (fun _ => mret false).

(** [close_all_logs] (and [__del__], which only calls it):
    [for caller_number in list(self.file_handles.keys())]. The dictionary
    lists its keys in the order of insertion, which the cache as a finite map
    does not record: the list is an argument. *)
Fixpoint close_all_logs (keys : list string) : M unit :=
  match keys with
  | [] => mret tt
  | caller_number :: rest =>
      close_caller_log caller_number;;
      close_all_logs rest
  end.

(** *** Vocabulary for the further properties *)

Fixpoint sall (p : ascii -> bool) (s : string) : bool :=
  match s with
  | EmptyString => true
  | String c s' => p c && sall p s'
  end.

(** Every cached handle was allocated, and no two caller numbers share one. *)
Definition cache_inv (s : State) : Prop :=
  (forall k fd, file_handles s !! k = Some fd -> fd < next_id s)
  /\ (forall k1 k2 fd,
        file_handles s !! k1 = Some fd -> file_handles s !! k2 = Some fd ->
        k1 = k2).

(** From [s] to [s'] the cache, the log directory and the oracle of standard
    output are as they were, and no identifier was given back. *)
Definition cache_frame (s s' : State) : Prop :=
  file_handles s' = file_handles s
  /\ log_directory s' = log_directory s
  /\ stdout_fault s' = stdout_fault s
  /\ next_id s <= next_id s'.

(** The identifiers not yet allocated name no open file object. *)
Definition open_files_allocated (s : State) : Prop :=
  forall fd, next_id s <= fd -> open_files s !! fd = None.

(** From [s] to [s'] the open file objects are as they were, and no
    identifier was given back. *)
Definition open_frame (s s' : State) : Prop :=
  open_files s' = open_files s /\ next_id s <= next_id s'.

(** No write to a sink fails. *)
Definition sinks_quiet (r : Relay) : Prop := forall n, sink_fault r n = false.

(** The chunk-log lines of consecutive fragments, numbered from [seq]. *)
Fixpoint chunk_lines (model : string) (user : option string) (seq : nat)
    (texts : list string) : list string :=
  match texts with
  | [] => []
  | text :: rest =>
      chunk_line seq text model user :: chunk_lines model user (S seq) rest
  end.

Definition is_newline (c : ascii) : bool :=
  Ascii.eqb c "010" || Ascii.eqb c "013".

(** A logger left by three events: a first message, the deletion of the file,
    a second message (which recreates the file). *)
Definition healed_logger : State :=
  snd (log_event "15551234567" "again" None
         (unlink "call-logs/15551234567.txt"
            (snd (log_event "15551234567" "hello" None sample_logger)))).


(** A body relates the state it starts in to the state it leaves, whether it
    returns or raises. *)
Definition keeps {St A} (R : St -> St -> Prop) (m : Eff St A) : Prop :=
  forall s, R s (snd (m s)).

(** From [s] to [s'] the invariant of the cache is not lost. *)
Definition inv_step (s s' : State) : Prop := cache_inv s -> cache_inv s'.

(** No cached handle holds text that is still to be flushed. *)
Definition handles_flushed (s : State) : Prop :=
  forall k fd,
    file_handles s !! k = Some fd ->
    match open_files s !! fd with
    | Some fo => fo_buf fo = EmptyString
    | None => True
    end.

Definition not_newline (c : ascii) : bool := negb (is_newline c).

Definition first_char (s : string) : option ascii :=
  match s with
  | EmptyString => None
  | String c _ => Some c
  end.

Fixpoint last_char (s : string) : option ascii :=
  match s with
  | EmptyString => None
  | String c EmptyString => Some c
  | String _ s' => last_char s'
  end.

(** The character, if there is one, is not white space. *)
Definition not_space (c : option ascii) : Prop :=
  match c with
  | Some c => Py.isspace c = false
  | None => True
  end.

(** A host whose standard output cannot encode the warnings of the logger:
    every print to it raises [UnicodeEncodeError]. *)
Definition ascii_stdout_logger : State :=
  set_stdout_fault (fun _ _ => Some UnicodeEncodeError) sample_logger.

(** A host on which system call 2 of the run, the flush of the first
    [append_log], fails, and no other. *)
Definition flush_fails_once_logger : State :=
  new_logger "call-logs" (fun n => n =? 2) (fun _ => sample_time)
    (fun n => (12 * Z.of_nat n)%Z).

(** A host on which every system call fails. *)
Definition failing_logger : State :=
  new_logger "call-logs" (fun _ => true) (fun _ => sample_time)
    (fun n => (12 * Z.of_nat n)%Z).

(** A logger with one cached handle, on a host where system call 6 of the
    run, the [fsync] of the next [append_log], fails. *)
Definition fsync_fails_next_logger : State :=
  snd (append_log "15551234567" "hello" true
         (new_logger "call-logs" (fun n => n =? 6) (fun _ => sample_time)
            (fun n => (12 * Z.of_nat n)%Z))).

(* ===================================================================== *)
(** ** Tactics and basic facts                                            *)
(* ===================================================================== *)

(** Unfold the bodies, then reduce reads of updated states. *)
Ltac unfold_bodies :=
  cbv beta delta
    [mbind mret Eff_bind Eff_ret raise gets modify try_except
     print_stderr fault_point py_open_append file_object file_write commit file_flush
     os_fsync file_close closing with_open_append os_path_exists
     os_path_getsize os_makedirs_dirname datetime_now perf_counter
     _get_file_handle _recreate_log_entry append_log_try append_log
     _verify_log_written log_event close_caller_log _get_log_filename
     read_file unlink].

Ltac reduce_state :=
  cbn beta iota zeta delta
    [set_file_handles set_fs_names set_fs_inodes set_open_files set_next_id
     set_syscalls set_clock_reads set_stdio set_stdout_fault set_stdout_writes
     log_directory file_handles fs_names fs_inodes open_files next_id
     fault syscalls wall_clock perf_clock clock_reads
     stdout_fault stdout_writes stdio
     fo_ino fo_buf fst snd Py.or_empty option_bind].

Ltac run := unfold_bodies; reduce_state.

(** The two outcomes of a print to standard output. *)
Lemma print_ok d s :
  stdout_fault s (stdout_writes s) = None ->
  print d s = (Ok tt, set_stdio (fun out => out ++ [d]) (set_stdout_writes S s)).
Proof. intros H. unfold print. now rewrite H. Qed.


(** On a standard output known to take every line, a print returns. *)
Ltac prints Hp := rewrite print_ok by (reduce_state; apply Hp).


Section Strings.

Lemma app_empty_l s : "" +:+ s = s.
Proof. reflexivity. Qed.

Lemma app_cons c s t : String c s +:+ t = String c (s +:+ t).
Proof. reflexivity. Qed.

Lemma app_empty_r s : s +:+ "" = s.
Proof.
  induction s as [|c s IH]; [reflexivity|].
  rewrite app_cons. now rewrite IH.
Qed.

Lemma app_assoc_s s t u : (s +:+ t) +:+ u = s +:+ (t +:+ u).
Proof.
  induction s as [|c s IH]; [reflexivity|].
  rewrite !app_cons. now rewrite IH.
Qed.

Lemma length_app_s s t : String.length (s +:+ t) = String.length s + String.length t.
Proof.
  induction s as [|c s IH]; [reflexivity|].
  rewrite app_cons. cbn [String.length]. now rewrite IH.
Qed.

Lemma length_take_s n s : String.length (Py.take n s) = Nat.min n (String.length s).
Proof.
  revert s. induction n as [|n IH]; intros [|c s]; cbn; try reflexivity.
  now rewrite IH.
Qed.

Lemma length_repeat_char c n : String.length (Py.repeat_char c n) = n.
Proof. induction n as [|n IH]; cbn; [reflexivity | now rewrite IH]. Qed.

End Strings.

Section Digits.

Lemma is_digit_digit n : is_digit (Py.digit n) = true.
Proof.
  unfold Py.digit.
  assert (H : (n mod 10 < 10)%N) by (apply N.mod_lt; lia).
  destruct (n mod 10)%N as [|p]; [reflexivity|].
  do 4 (destruct p as [p|p|]; try reflexivity; try lia).
Qed.

Lemma dec_aux_digits fuel : forall n acc,
  all_digits acc = true -> all_digits (Py.dec_aux fuel n acc) = true.
Proof.
  induction fuel as [|fuel IH]; intros n acc Hacc; cbn [Py.dec_aux]; [exact Hacc|].
  assert (Hacc' : all_digits (String (Py.digit n) acc) = true)
    by (cbn [all_digits]; now rewrite is_digit_digit).
  destruct (n / 10 =? 0)%N; [exact Hacc' | now apply IH].
Qed.

Lemma dec_aux_length fuel : forall w n acc,
  (n < 10 ^ N.of_nat (S w))%N ->
  String.length (Py.dec_aux fuel n acc) <= S w + String.length acc.
Proof.
  induction fuel as [|fuel IH]; intros w n acc Hn; cbn [Py.dec_aux]; [lia|].
  destruct (N.eqb_spec (n / 10) 0) as [Hz|Hz]; [cbn [String.length]; lia|].
  destruct w as [|w].
  - exfalso. apply Hz. apply N.div_small. exact Hn.
  - specialize (IH w (n / 10)%N (String (Py.digit n) acc)).
    cbn [String.length] in IH.
    assert ((n / 10 < 10 ^ N.of_nat (S w))%N).
    { apply N.Div0.div_lt_upper_bound.
      replace (N.of_nat (S (S w))) with (N.succ (N.of_nat (S w))) in Hn by lia.
      rewrite N.pow_succ_r' in Hn. exact Hn. }
    specialize (IH H). lia.
Qed.

Lemma all_digits_app s t :
  all_digits (s +:+ t) = all_digits s && all_digits t.
Proof.
  induction s as [|c s IH]; [reflexivity|].
  rewrite app_cons. cbn [all_digits]. rewrite IH. now rewrite andb_assoc.
Qed.

Lemma all_digits_zeros n : all_digits (Py.repeat_char "0" n) = true.
Proof. induction n as [|n IH]; [reflexivity|]. cbn [Py.repeat_char all_digits]. now rewrite IH. Qed.

Lemma zfill_digits w n : all_digits (Py.zfill w n) = true.
Proof.
  unfold Py.zfill, Py.lpad. rewrite all_digits_app, all_digits_zeros.
  unfold Py.dec. now rewrite dec_aux_digits.
Qed.

Lemma zfill_length w n :
  (n < 10 ^ N.of_nat (S w))%N -> String.length (Py.zfill (S w) n) = S w.
Proof.
  intros Hn. unfold Py.zfill, Py.lpad.
  rewrite length_app_s, length_repeat_char.
  pose proof (dec_aux_length (S (N.to_nat (N.log2 n))) w n EmptyString Hn) as H.
  unfold Py.dec. cbn [String.length] in H. lia.
Qed.



End Digits.

Lemma valid_datetime_bounds d :
  valid_datetime d = true ->
  (dt_year d < 10 ^ 4 /\ dt_month d < 10 ^ 2 /\ dt_day d < 10 ^ 2 /\
   dt_hour d < 10 ^ 2 /\ dt_minute d < 10 ^ 2 /\ dt_second d < 10 ^ 2 /\
   dt_microsecond d < 10 ^ 6)%N.
Proof.
  unfold valid_datetime. rewrite !andb_true_iff, !N.leb_le. 
  change (10 ^ 4)%N with 10000%N. change (10 ^ 2)%N with 100%N.
  change (10 ^ 6)%N with 1000000%N. lia.
Qed.

Lemma timestamp_ms_shape d :
  valid_datetime d = true ->
  matches timestamp_pattern (timestamp_ms d) = true /\
  String.length (timestamp_ms d) = 23.
Proof.
  intros (Hy & Hm & Hd & Hh & Hmi & Hs & Hu)%valid_datetime_bounds.
  unfold timestamp_ms, Py.drop_last, strftime.
  pose proof (zfill_length 3 _ Hy) as Ly. pose proof (zfill_digits 4 (dt_year d)) as Dy.
  pose proof (zfill_length 1 _ Hm) as Lm. pose proof (zfill_digits 2 (dt_month d)) as Dm.
  pose proof (zfill_length 1 _ Hd) as Ld. pose proof (zfill_digits 2 (dt_day d)) as Dd.
  pose proof (zfill_length 1 _ Hh) as Lh. pose proof (zfill_digits 2 (dt_hour d)) as Dh.
  pose proof (zfill_length 1 _ Hmi) as Lmi. pose proof (zfill_digits 2 (dt_minute d)) as Dmi.
  pose proof (zfill_length 1 _ Hs) as Ls. pose proof (zfill_digits 2 (dt_second d)) as Ds.
  pose proof (zfill_length 5 _ Hu) as Lu. pose proof (zfill_digits 6 (dt_microsecond d)) as Du.
  destruct (Py.zfill 4 (dt_year d)) as [|y1 [|y2 [|y3 [|y4 [|? ?]]]]]; try discriminate Ly.
  destruct (Py.zfill 2 (dt_month d)) as [|m1 [|m2 [|? ?]]]; try discriminate Lm.
  destruct (Py.zfill 2 (dt_day d)) as [|d1 [|d2 [|? ?]]]; try discriminate Ld.
  destruct (Py.zfill 2 (dt_hour d)) as [|h1 [|h2 [|? ?]]]; try discriminate Lh.
  destruct (Py.zfill 2 (dt_minute d)) as [|i1 [|i2 [|? ?]]]; try discriminate Lmi.
  destruct (Py.zfill 2 (dt_second d)) as [|s1 [|s2 [|? ?]]]; try discriminate Ls.
  destruct (Py.zfill 6 (dt_microsecond d)) as [|u1 [|u2 [|u3 [|u4 [|u5 [|u6 [|? ?]]]]]]];
    try discriminate Lu.
  cbn [all_digits] in *.
  repeat match goal with
         | H : _ && _ = true |- _ => apply andb_true_iff in H as [? ?]
         end.
  cbv beta iota delta [String.append String.length Nat.sub Py.take timestamp_pattern matches].
  repeat match goal with
         | H : is_digit _ = true |- _ => rewrite H; clear H
         end.
  split; reflexivity.
Qed.

Section FileNames.

Lemma replace_by_nothing c s :
  Py.replace c "" s = sfilter (fun x => negb (Ascii.eqb x c)) s.
Proof.
  induction s as [|a s IH]; [reflexivity|].
  cbn [Py.replace sfilter]. destruct (Ascii.eqb a c); cbn [negb].
  - now rewrite app_empty_l.
  - now rewrite IH.
Qed.

Lemma sfilter_twice p q s :
  sfilter p (sfilter q s) = sfilter (fun c => q c && p c) s.
Proof.
  induction s as [|a s IH]; [reflexivity|].
  cbn [sfilter]. destruct (q a); cbn [sfilter andb]; [|exact IH].
  destruct (p a); now rewrite IH.
Qed.

Lemma sfilter_ext p q s : (forall c, p c = q c) -> sfilter p s = sfilter q s.
Proof.
  intros H. induction s as [|a s IH]; [reflexivity|].
  cbn [sfilter]. now rewrite H, IH.
Qed.

Lemma safe_number_token key : safe_number key = normalized_token key.
Proof.
  unfold safe_number, normalized_token.
  rewrite !replace_by_nothing, !sfilter_twice.
  apply sfilter_ext. intros c. unfold stripped_char.
  destruct (Ascii.eqb c "+"), (Ascii.eqb c "-"), (Ascii.eqb c " "),
    (Ascii.eqb c "("), (Ascii.eqb c ")"); reflexivity.
Qed.

End FileNames.

(* ===================================================================== *)
(** ** CallLogger: running the methods                                    *)
(* ===================================================================== *)

(** Run a body symbolically: reduce, then rewrite what is known. *)
Ltac exec tac := repeat (reduce_state; progress tac).

Ltac lookups :=
  first [ rewrite lookup_insert_eq
        | rewrite lookup_delete_eq
        | rewrite lookup_insert_ne by (first [lia | congruence | assumption])
        | rewrite lookup_delete_ne by (first [lia | congruence | assumption]) ].

Lemma size_after_stamp a d m :
  (0 <? String.length (a +:+ stamped_line d m)) = true.
Proof.
  apply Nat.ltb_lt. rewrite length_app_s. unfold stamped_line.
  rewrite app_cons. cbn [String.length]. lia.
Qed.

Lemma size_empty : (0 <? String.length "") = false.
Proof. reflexivity. Qed.

Lemma size_nonempty c : c <> "" -> (0 <? String.length c) = true.
Proof. destruct c; [congruence|reflexivity]. Qed.

Ltac strings :=
  first [ rewrite app_empty_r | rewrite app_empty_l | rewrite size_after_stamp
        | rewrite size_empty ].



(** The scenario of the specification. *)
Example scenario_file_name :
  normalized_token "+1 (555) 123-4567" +:+ ".txt" = "15551234567.txt".
Proof. reflexivity. Qed.



(* ===================================================================== *)
(** ** CallLogger: failures stay inside                                    *)
(* ===================================================================== *)

Section Totality.
Context {St : Type}.






End Totality.

(** *** What a body leaves as it was

    [keeps R m]: the body [m] relates the state it starts in to the state it
    leaves, whether it returns or raises. *)

Section Keeps.
Context {St : Type} (R : St -> St -> Prop).
Hypothesis R_refl : forall s, R s s.
Hypothesis R_trans : forall a b c, R a b -> R b c -> R a c.

Lemma keeps_ret {A} (a : A) : keeps R (mret a).
Proof. intros s. apply R_refl. Qed.

Lemma keeps_raise {A} (e : Exn) : keeps R (raise e : Eff St A).
Proof. intros s. apply R_refl. Qed.

Lemma keeps_gets {A} (f : St -> A) : keeps R (gets f).
Proof. intros s. apply R_refl. Qed.

Lemma keeps_modify (f : St -> St) : (forall s, R s (f s)) -> keeps R (modify f).
Proof. intros H s. apply H. Qed.

Lemma keeps_bind {A B} (m : Eff St A) (k : A -> Eff St B) :
  keeps R m -> (forall a, keeps R (k a)) -> keeps R (m ≫= k).
Proof.
  intros Hm Hk s. unfold mbind, Eff_bind.
  specialize (Hm s). destruct (m s) as [[a|e] s1]; cbn [snd] in *; [|exact Hm].
  eapply R_trans; [exact Hm | apply Hk].
Qed.

Lemma keeps_try {A} (body : Eff St A) (handler : Exn -> Eff St A) :
  keeps R body -> (forall e, keeps R (handler e)) -> keeps R (try_except body handler).
Proof.
  intros Hb Hh s. unfold try_except.
  specialize (Hb s). destruct (body s) as [[a|e] s1]; cbn [snd] in *; [exact Hb|].
  eapply R_trans; [exact Hb | apply Hh].
Qed.

End Keeps.

Lemma keeps_weaken {St A} (R R' : St -> St -> Prop) (m : Eff St A) :
  (forall s s', R s s' -> R' s s') -> keeps R m -> keeps R' m.
Proof. intros H Hm s. apply H, Hm. Qed.

Lemma cache_frame_refl s : cache_frame s s.
Proof. repeat split; auto. Qed.

Lemma cache_frame_trans a b c : cache_frame a b -> cache_frame b c -> cache_frame a c.
Proof.
  intros (H1 & H2 & H3 & H4) (H5 & H6 & H7 & H8).
  repeat split; try congruence. lia.
Qed.

Lemma inv_step_refl s : inv_step s s.
Proof. intros H; exact H. Qed.

Lemma inv_step_trans a b c : inv_step a b -> inv_step b c -> inv_step a c.
Proof. unfold inv_step. auto. Qed.

Lemma cache_frame_inv_step s s' : cache_frame s s' -> inv_step s s'.
Proof.
  intros (Hc & _ & _ & Hn) (Hlt & Hinj). split.
  - intros k fd H. rewrite Hc in H. specialize (Hlt k fd H). lia.
  - intros k1 k2 fd H1 H2. rewrite Hc in H1, H2. eauto.
Qed.

Ltac frame_step :=
  intros; unfold cache_frame; reduce_state; repeat split; auto; lia.

Lemma keeps_fault_point : keeps cache_frame fault_point.
Proof.
  intros s. unfold fault_point. destruct (fault s (syscalls s)); frame_step.
Qed.

Lemma keeps_print d : keeps cache_frame (print d).
Proof.
  intros s. unfold print. destruct (stdout_fault s (stdout_writes s)); frame_step.
Qed.

Lemma keeps_print_stderr d : keeps cache_frame (print_stderr d).
Proof. intros s. unfold print_stderr, modify. frame_step. Qed.

Ltac keeps_frame :=
  repeat first
    [ apply keeps_ret; exact cache_frame_refl
    | exact (keeps_print _)
    | exact (keeps_print_stderr _)
    | apply keeps_raise; exact cache_frame_refl
    | apply keeps_gets; exact cache_frame_refl
    | exact keeps_fault_point
    | apply keeps_modify; frame_step
    | apply (keeps_bind cache_frame cache_frame_trans); [|intros ?]
    | apply (keeps_try cache_frame cache_frame_trans); [|intros ?]
    | match goal with
      | |- keeps _ (match ?x with _ => _ end) => destruct x
      | |- keeps _ (if ?x then _ else _) => destruct x
      end ].

Lemma keeps_open path : keeps cache_frame (py_open_append path).
Proof. unfold py_open_append. keeps_frame. Qed.

Lemma keeps_file_object fd : keeps cache_frame (file_object fd).
Proof. unfold file_object. keeps_frame. Qed.

Lemma keeps_write fd data : keeps cache_frame (file_write fd data).
Proof. unfold file_write. apply (keeps_bind _ cache_frame_trans); [apply keeps_file_object|intros ?]. keeps_frame. Qed.

Lemma keeps_flush fd : keeps cache_frame (file_flush fd).
Proof.
  unfold file_flush, commit.
  apply (keeps_bind _ cache_frame_trans); [apply keeps_file_object|intros ?].
  keeps_frame.
Qed.

Lemma keeps_fsync fd : keeps cache_frame (os_fsync fd).
Proof.
  unfold os_fsync.
  apply (keeps_bind _ cache_frame_trans); [apply keeps_file_object|intros ?].
  keeps_frame.
Qed.

Lemma keeps_close fd : keeps cache_frame (file_close fd).
Proof. unfold file_close. keeps_frame. Qed.

Lemma keeps_closing {A} fd (block : M A) :
  keeps cache_frame block -> keeps cache_frame (closing fd block).
Proof.
  intros Hb s. unfold closing. specialize (Hb s).
  destruct (block s) as [[a|e] s1]; cbn [snd] in Hb;
    (eapply cache_frame_trans; [exact Hb|]).
  - apply (keeps_bind _ cache_frame_trans); [apply keeps_close|intros ?].
    apply keeps_ret, cache_frame_refl.
  - apply (keeps_bind _ cache_frame_trans); [apply keeps_close|intros ?].
    apply keeps_raise, cache_frame_refl.
Qed.

Lemma keeps_getsize path : keeps cache_frame (os_path_getsize path).
Proof. unfold os_path_getsize. keeps_frame. Qed.

(** The [try] block of [_recreate_log_entry]. *)
Ltac keeps_recreate_try :=
  unfold with_open_append, os_makedirs_dirname, datetime_now;
  apply (keeps_bind _ cache_frame_trans); [keeps_frame|intros ?];
  apply (keeps_bind _ cache_frame_trans); [keeps_frame|intros _];
  apply (keeps_bind _ cache_frame_trans); [intros ?; frame_step|intros ?];
  apply (keeps_bind _ cache_frame_trans); [|intros _; keeps_frame];
  apply (keeps_bind _ cache_frame_trans); [apply keeps_open|intros ?];
  apply keeps_closing;
  apply (keeps_bind _ cache_frame_trans); [apply keeps_write|intros _];
  apply (keeps_bind _ cache_frame_trans); [apply keeps_flush|intros _];
  apply keeps_fsync.

Lemma keeps_recreate k m : keeps cache_frame (_recreate_log_entry k m).
Proof.
  unfold _recreate_log_entry.
  apply (keeps_try _ cache_frame_trans); [|intros ?; keeps_frame].
  keeps_recreate_try.
Qed.

(** The [try] block of [_verify_log_written]. *)
Ltac keeps_verify_try :=
  let cached := fresh "cached" in
  let present := fresh "present" in
  let size := fresh "size" in
  unfold os_path_exists;
  apply (keeps_bind _ cache_frame_trans); [keeps_frame|intros ?];
  apply (keeps_bind _ cache_frame_trans); [keeps_frame|intros cached];
  apply (keeps_bind _ cache_frame_trans);
    [ destruct cached as [?|]; [|keeps_frame];
      apply (keeps_bind _ cache_frame_trans); [apply keeps_flush|intros _];
      apply keeps_fsync
    | intros _ ];
  apply (keeps_bind _ cache_frame_trans); [keeps_frame|intros present];
  destruct present;
    [ apply (keeps_bind _ cache_frame_trans); [apply keeps_getsize|intros size];
      destruct (0 <? size); [keeps_frame|];
      apply (keeps_bind _ cache_frame_trans); [keeps_frame|intros _];
      apply (keeps_bind _ cache_frame_trans); [apply keeps_recreate|intros _];
      keeps_frame
    | apply (keeps_bind _ cache_frame_trans); [keeps_frame|intros _];
      apply (keeps_bind _ cache_frame_trans); [apply keeps_recreate|intros _];
      keeps_frame ].

Lemma keeps_verify k m : keeps cache_frame (_verify_log_written k m).
Proof.
  unfold _verify_log_written.
  apply (keeps_try _ cache_frame_trans).
  - keeps_verify_try.
  - intros e.
    apply (keeps_bind _ cache_frame_trans); [keeps_frame|intros _].
    apply (keeps_try _ cache_frame_trans); [|intros ?; keeps_frame].
    apply (keeps_bind _ cache_frame_trans); [apply keeps_recreate|intros _].
    keeps_frame.
Qed.

Lemma keeps_check k : keeps cache_frame (log_file_exists_and_has_content k).
Proof.
  unfold log_file_exists_and_has_content, os_path_exists.
  apply (keeps_try _ cache_frame_trans); [|intros ?; keeps_frame].
  apply (keeps_bind _ cache_frame_trans); [keeps_frame|intros filename].
  apply (keeps_bind _ cache_frame_trans); [keeps_frame|intros present].
  destruct present; [|keeps_frame].
  apply (keeps_bind _ cache_frame_trans); [apply keeps_getsize|intros size].
  keeps_frame.
Qed.

Lemma stdout_quiet_frame s s' : cache_frame s s' -> stdout_quiet s -> stdout_quiet s'.
Proof. intros (_ & _ & Hf & _) Hp n. rewrite Hf. apply Hp. Qed.

Lemma stdout_quiet_after {A} (m : M A) s :
  keeps cache_frame m -> stdout_quiet s -> stdout_quiet (snd (m s)).
Proof. intros Hm. apply stdout_quiet_frame, Hm. Qed.

(** [_recreate_log_entry] raises only what a print to standard output
    raises: the one of its handler. *)
Lemma recreate_returns k m s :
  stdout_quiet s -> exists s', _recreate_log_entry k m s = (Ok tt, s').
Proof.
  intros Hp. unfold _recreate_log_entry.
  match goal with
  | |- context [try_except ?B _] => set (body := B)
  end.
  assert (Hb : keeps cache_frame body) by (unfold body; keeps_recreate_try).
  unfold try_except. pose proof (stdout_quiet_after body s Hb Hp) as Hp1.
  destruct (body s) as [[[]|e] s1]; cbn [snd] in Hp1; [now exists s1|].
  rewrite (print_ok _ _ (Hp1 _)). eauto.
Qed.




Lemma bind_returned {St A B} (m : Eff St A) (k : A -> Eff St B) s b s2 :
  (m ≫= k) s = (Ok b, s2) ->
  exists a s1, m s = (Ok a, s1) /\ k a s1 = (Ok b, s2).
Proof.
  unfold mbind, Eff_bind. destruct (m s) as [[a|e] s1]; [eauto|discriminate].
Qed.


(** On a standard output that takes every line, [_verify_log_written]
    returns [True]. *)
Lemma verify_returns_true k m s :
  stdout_quiet s -> exists s', _verify_log_written k m s = (Ok true, s').
Proof.
  intros Hp. unfold _verify_log_written.
  match goal with
  | |- context [try_except ?B _] => set (body := B)
  end.
  assert (Hb : keeps cache_frame body) by (unfold body; keeps_verify_try).
  unfold try_except. pose proof (stdout_quiet_after body s Hb Hp) as Hp1.
  destruct (body s) as [[b|e] s1] eqn:Hbody; cbn [snd] in Hp1.
  - exists s1. f_equal. f_equal. unfold body in Hbody.
    apply bind_returned in Hbody as (filename & s2 & _ & Hbody).
    apply bind_returned in Hbody as (cached & s3 & _ & Hbody).
    apply bind_returned in Hbody as (u & s4 & _ & Hbody).
    apply bind_returned in Hbody as (present & s5 & _ & Hbody).
    destruct present.
    + apply bind_returned in Hbody as (size & s6 & _ & Hbody).
      destruct (0 <? size); [now injection Hbody|].
      apply bind_returned in Hbody as (u1 & s7 & _ & Hbody).
      apply bind_returned in Hbody as (u2 & s8 & _ & Hbody).
      now injection Hbody.
    + apply bind_returned in Hbody as (u1 & s7 & _ & Hbody).
      apply bind_returned in Hbody as (u2 & s8 & _ & Hbody).
      now injection Hbody.
  - unfold mbind at 1. unfold Eff_bind. rewrite (print_ok _ _ (Hp1 _)).
    set (s2 := set_stdio _ _).
    assert (Hp2 : stdout_quiet s2) by (intros n; unfold s2; reduce_state; apply Hp1).
    destruct (recreate_returns k m s2 Hp2) as (s3 & Hrun).
    exists s3. unfold mbind, Eff_bind. now rewrite Hrun.
Qed.

(** Recreation on a quiet host. *)
Lemma recreate_quiet s k m :
  quiet s -> stdout_quiet s ->
  exists s',
    _recreate_log_entry k m s = (Ok tt, s')
    /\ read_file s' (_get_log_filename s k)
       = Some (Py.or_empty (read_file s (_get_log_filename s k))
               +:+ stamped_line (wall_clock s (clock_reads s)) m)
    /\ stdio s' = stdio s ++ [DiagRecreated k (_get_log_filename s k)]
    /\ file_handles s' = file_handles s.
Proof.
  intros Hq Hp. unfold quiet in Hq. unfold stdout_quiet in Hp. unfold _get_log_filename.
  destruct (fs_names s !! Py.path_join (log_directory s)
              (safe_number k +:+ ".txt")) as [i|] eqn:Hn.
  - eexists; split;
      [ run; exec ltac:(first [rewrite Hq | prints Hp | rewrite Hn | lookups | strings]);
        reflexivity | ].
    run; exec ltac:(first [rewrite Hn | lookups | strings]). auto.
  - eexists; split;
      [ run; exec ltac:(first [rewrite Hq | prints Hp | rewrite Hn | lookups | strings]);
        reflexivity | ].
    run; exec ltac:(first [rewrite Hn | lookups | strings]). auto.
Qed.




(* ===================================================================== *)
(** ** CallLogger: the handle cache                                       *)
(* ===================================================================== *)

Lemma get_file_handle_cached s key fd :
  file_handles s !! key = Some fd -> _get_file_handle key s = (Ok fd, s).
Proof.
  intros H. run. exec ltac:(rewrite H). reflexivity.
Qed.





(* ===================================================================== *)
(** ** CallLogger: verification and recovery                               *)
(* ===================================================================== *)

(** What verification does when no system call fails and the cached handle
    has nothing pending: nothing, on a file with text in it. *)
Lemma verify_present s k m j c :
  quiet s -> handle_idle s k ->
  fs_names s !! _get_log_filename s k = Some j ->
  fs_inodes s !! j = Some c -> c <> "" ->
  exists s',
    _verify_log_written k m s = (Ok true, s')
    /\ fs_names s' = fs_names s /\ fs_inodes s' = fs_inodes s
    /\ open_files s' = open_files s /\ file_handles s' = file_handles s
    /\ stdio s' = stdio s.
Proof.
  intros Hq Hi Hn Hj Hc. unfold quiet in Hq. unfold handle_idle in Hi.
  unfold _get_log_filename in Hn. pose proof (size_nonempty c Hc) as Hsz.
  destruct (file_handles s !! k) as [fd|] eqn:Hfd.
  - destruct Hi as (i & c0 & Ho & Hino).
    assert (Hins : <[i:=c0]> (fs_inodes s) = fs_inodes s) by now apply insert_id.
    assert (Hopen : <[fd:={| fo_ino := i; fo_buf := "" |}]> (open_files s) = open_files s)
      by now apply insert_id.
    eexists; split;
      [ run; exec ltac:(first [rewrite Hfd | rewrite Ho | rewrite Hq | rewrite Hn
                              | rewrite Hino | rewrite Hins | rewrite Hopen
                              | rewrite Hj | rewrite Hsz | lookups | strings ]);
        reflexivity | ].
    exec ltac:(first [rewrite Hino | rewrite Hins | rewrite Hopen | strings]). auto.
  - eexists; split;
      [ run; exec ltac:(first [rewrite Hfd | rewrite Hq | rewrite Hn
                              | rewrite Hj | rewrite Hsz | lookups | strings ]);
        reflexivity | ].
    reduce_state. auto.
Qed.

(** And when the file is missing or empty, on a standard output that takes
    the warning: one warning, and the entry is recreated. *)
Lemma verify_absent s k m :
  quiet s -> stdout_quiet s -> handle_idle s k ->
  missing_or_empty s (_get_log_filename s k) ->
  exists s' d,
    _verify_log_written k m s = (Ok true, s')
    /\ read_file s' (_get_log_filename s k)
       = Some (stamped_line (wall_clock s (clock_reads s)) m)
    /\ stdio s' = (stdio s ++ [d]) ++ [DiagRecreated k (_get_log_filename s k)]
    /\ (d = DiagFileMissing (_get_log_filename s k)
        \/ d = DiagFileEmpty (_get_log_filename s k)).
Proof.
  intros Hq Hp Hi He. unfold quiet in Hq. unfold stdout_quiet in Hp. unfold handle_idle in Hi.
  unfold missing_or_empty in He. unfold _get_log_filename in *.
  destruct (fs_names s !! Py.path_join (log_directory s)
              (safe_number k +:+ ".txt")) as [j|] eqn:Hn;
  destruct (file_handles s !! k) as [fd|] eqn:Hfd.
  - destruct Hi as (i & c0 & Ho & Hino).
    destruct (decide (i = j)) as [->|Hij].
    + rewrite Hino in He. cbn [Py.or_empty] in He. subst c0.
      eexists _, _; split;
      [ run; exec ltac:(first [rewrite Hfd | rewrite Ho | rewrite Hq | prints Hp | rewrite Hn
                              | rewrite Hino | lookups | strings ]);
        reflexivity | ].
      split; [|split; [|right]]; 
      run; exec ltac:(first [rewrite Hn | rewrite Hino | lookups | strings ]);
      reflexivity.
    + destruct (fs_inodes s !! j) as [cj|] eqn:Hj; cbn [Py.or_empty] in He; subst.
      * eexists _, _; split;
        [ run; exec ltac:(first [rewrite Hfd | rewrite Ho | rewrite Hq | prints Hp | rewrite Hn
                              | rewrite Hino | rewrite Hj | lookups | strings ]);
          reflexivity | ].
        split; [|split; [|right]]; 
        run; exec ltac:(first [rewrite Hn | rewrite Hino | rewrite Hj | lookups | strings ]);
        reflexivity.
      * eexists _, _; split;
        [ run; exec ltac:(first [rewrite Hfd | rewrite Ho | rewrite Hq | prints Hp | rewrite Hn
                              | rewrite Hino | rewrite Hj | lookups | strings ]);
          reflexivity | ].
        split; [|split; [|right]]; 
        run; exec ltac:(first [rewrite Hn | rewrite Hino | rewrite Hj | lookups | strings ]);
        reflexivity.
  - destruct (fs_inodes s !! j) as [cj|] eqn:Hj; cbn [Py.or_empty] in He; subst.
    + eexists _, _; split;
        [ run; exec ltac:(first [rewrite Hfd | rewrite Hq | prints Hp | rewrite Hn
                              | rewrite Hj | lookups | strings ]);
          reflexivity | ].
        split; [|split; [|right]]; 
        run; exec ltac:(first [rewrite Hn | rewrite Hj | lookups | strings ]);
        reflexivity.
    + eexists _, _; split;
        [ run; exec ltac:(first [rewrite Hfd | rewrite Hq | prints Hp | rewrite Hn
                              | rewrite Hj | lookups | strings ]);
          reflexivity | ].
        split; [|split; [|right]]; 
        run; exec ltac:(first [rewrite Hn | rewrite Hj | lookups | strings ]);
        reflexivity.
  - destruct Hi as (i & c0 & Ho & Hino).
    eexists _, _; split;
      [ run; exec ltac:(first [rewrite Hfd | rewrite Ho | rewrite Hq | prints Hp | rewrite Hn
                              | rewrite Hino | lookups | strings ]);
        reflexivity | ].
    split; [|split; [|left]]; 
      run; exec ltac:(first [rewrite Hn | rewrite Hino | lookups | strings ]);
      reflexivity.
  - eexists _, _; split;
      [ run; exec ltac:(first [rewrite Hfd | rewrite Hq | prints Hp | rewrite Hn
                              | lookups | strings ]);
        reflexivity | ].
    split; [|split; [|left]]; 
      run; exec ltac:(first [rewrite Hn | lookups | strings ]);
      reflexivity.
Qed.

Lemma log_event_coherent s key msg st :
  quiet s -> cache_coherent s key ->
  exists s' fd i,
    log_event key msg st s = (Ok tt, s')
    /\ read_file s' (_get_log_filename s key)
       = Some (Py.or_empty (read_file s (_get_log_filename s key))
               +:+ stamped_line (wall_clock s (reads_before_append s st))
                     (log_data_of s msg st))
    /\ file_handles s' !! key = Some fd
    /\ open_files s' !! fd = Some {| fo_ino := i; fo_buf := "" |}
    /\ is_Some (fs_inodes s' !! i)
    /\ fs_names s' !! _get_log_filename s key = Some i
    /\ log_directory s' = log_directory s
    /\ fault s' = fault s.
Proof.
  intros Hq Hc. unfold cache_coherent in Hc. unfold quiet in Hq.
  unfold reads_before_append, log_data_of.
  destruct (file_handles s !! key) as [fd|] eqn:Hfd.
  - destruct Hc as (i & Ho & Hn). unfold _get_log_filename in *.
    destruct st as [t0|];
    (eexists _, fd, i; split;
      [ run; exec ltac:(first [rewrite Hfd | rewrite Ho | rewrite Hq
                              | rewrite Hn | lookups | strings]);
        reflexivity | ]);
    run; exec ltac:(first [rewrite Hfd | rewrite Hn | lookups | strings]);
    repeat split; eauto.
  - clear Hc. unfold _get_log_filename.
    destruct (fs_names s !! Py.path_join (log_directory s)
                (safe_number key +:+ ".txt")) as [i|] eqn:Hn.
    + destruct st as [t0|];
      (eexists _, (next_id s), i; split;
        [ run; exec ltac:(first [rewrite Hfd | rewrite Hq | rewrite Hn
                                | lookups | strings]);
          reflexivity | ]);
      run; exec ltac:(first [rewrite Hfd | rewrite Hn | lookups | strings]);
      repeat split; eauto.
    + destruct st as [t0|];
      (eexists _, (S (next_id s)), (next_id s); split;
        [ run; exec ltac:(first [rewrite Hfd | rewrite Hq | rewrite Hn
                                | lookups | strings]);
          reflexivity | ]);
      run; exec ltac:(first [rewrite Hfd | rewrite Hn | lookups | strings]);
      repeat split; eauto.
Qed.

Lemma log_event_orphaned s key msg st fd i c :
  quiet s -> stdout_quiet s ->
  file_handles s !! key = Some fd ->
  open_files s !! fd = Some {| fo_ino := i; fo_buf := "" |} ->
  fs_inodes s !! i = Some c ->
  i < next_id s ->
  fs_names s !! _get_log_filename s key <> Some i ->
  missing_or_empty s (_get_log_filename s key) ->
  exists s',
    log_event key msg st s = (Ok tt, s')
    /\ fs_inodes s' !! i
       = Some (c +:+ stamped_line (wall_clock s (reads_before_append s st))
                       (log_data_of s msg st))
    /\ read_file s' (_get_log_filename s key)
       = Some (stamped_line (wall_clock s (S (reads_before_append s st))) msg).
Proof.
  intros Hq Hp Hfd Ho Hino Hfresh Hne He. unfold quiet in Hq. unfold stdout_quiet in Hp.
  unfold missing_or_empty in He.
  unfold reads_before_append, log_data_of. unfold _get_log_filename in *.
  assert (Hi : i <> next_id s) by lia.
  destruct (fs_names s !! Py.path_join (log_directory s)
              (safe_number key +:+ ".txt")) as [j|] eqn:Hn.
  - assert (Hij : i <> j) by congruence.
    destruct (fs_inodes s !! j) as [cj|] eqn:Hj; cbn [Py.or_empty] in He; subst;
    destruct st as [t0|];
    (eexists; split;
      [ run; exec ltac:(first [rewrite Hfd | rewrite Ho | rewrite Hq | prints Hp | rewrite Hino
                              | rewrite Hj | rewrite Hn | lookups | strings]);
        reflexivity | ]);
    split; run;
    exec ltac:(first [rewrite Hn | rewrite Hino | rewrite Hj | lookups | strings]);
    reflexivity.
  - destruct st as [t0|];
    (eexists; split;
      [ run; exec ltac:(first [rewrite Hfd | rewrite Ho | rewrite Hq | prints Hp | rewrite Hino
                              | rewrite Hn | lookups | strings]);
        reflexivity | ]);
    split; run;
    exec ltac:(first [rewrite Hn | rewrite Hino | lookups | strings]);
    reflexivity.
Qed.

(** When nothing fails, a [log_event] that finds its file deleted leaves it
    recreated with the message. *)
Lemma log_event_recovers s key msg st fd i :
  quiet s -> stdout_quiet s ->
  file_handles s !! key = Some fd ->
  open_files s !! fd = Some {| fo_ino := i; fo_buf := "" |} ->
  fs_names s !! _get_log_filename s key = None ->
  exists s',
    log_event key msg st s = (Ok tt, s')
    /\ read_file s' (_get_log_filename s key)
       = Some (stamped_line (wall_clock s (S (reads_before_append s st))) msg).
Proof.
  intros Hq Hp Hfd Ho Hn. unfold quiet in Hq. unfold stdout_quiet in Hp.
  unfold reads_before_append. unfold _get_log_filename in *.
  destruct st as [t0|];
    (eexists; split;
      [ run; exec ltac:(first [rewrite Hfd | rewrite Ho | rewrite Hq | prints Hp
                              | rewrite Hn | lookups | strings]);
        reflexivity | ]);
    run; exec ltac:(first [rewrite Hn | lookups | strings]);
    reflexivity.
Qed.

(** C6. On a host whose [fsync] fails, the file is there and holds the line
    [append_log] wrote, the cached handle has nothing pending, and yet
    [_verify_log_written] writes the entry a second time: its [fsync] is not
    guarded as the one of [append_log] is, the handler takes the error for a
    failed verification and calls [_recreate_log_entry]. *)
Lemma verify_writes_duplicate :
  let s1 := snd (append_log "15551234567" "hello" true no_fsync_logger) in
  let r := _verify_log_written "15551234567" "hello" s1 in
  let line := "[2026-01-02 03:04:05.678] hello" +:+ nl in
  read_file s1 "call-logs/15551234567.txt" = Some line
  /\ handle_idle s1 "15551234567"
  /\ fst r = Ok true
  /\ read_file (snd r) "call-logs/15551234567.txt" = Some (line +:+ line)
  /\ stdio (snd r)
     = [DiagVerifyFailed "15551234567" OSError;
        DiagRecreated "15551234567" "call-logs/15551234567.txt"].
Proof.
  cbv zeta. split; [vm_compute; reflexivity|]. split.
  - unfold handle_idle.
    assert (H : file_handles (snd (append_log "15551234567" "hello" true no_fsync_logger))
                !! "15551234567" = Some 1) by (vm_compute; reflexivity).
    rewrite H. exists 0, ("[2026-01-02 03:04:05.678] hello" +:+ nl).
    split; vm_compute; reflexivity.
  - repeat split; vm_compute; reflexivity.
Qed.

(** Two more ways in which the method misses what it is meant to do. The
    flush of verification writes what a failed flush of [append_log] left
    pending, after the fallback has written the same line: no call of
    verification fails, and the line is there twice. *)
Lemma verify_flush_writes_duplicate :
  let s1 := snd (append_log "15551234567" "hello" true flush_fails_once_logger) in
  let r := _verify_log_written "15551234567" "hello" s1 in
  let line := "[2026-01-02 03:04:05.678] hello" +:+ nl in
  read_file s1 "call-logs/15551234567.txt" = Some line
  /\ stdio s1
     = [DiagAppendFailed "15551234567" OSError;
        DiagRecreated "15551234567" "call-logs/15551234567.txt"]
  /\ fst r = Ok true
  /\ read_file (snd r) "call-logs/15551234567.txt" = Some (line +:+ line)
  /\ stdio (snd r) = stdio s1.
Proof.
  cbv zeta.
  repeat match goal with |- _ /\ _ => split end; vm_compute; reflexivity.
Qed.

(** The warnings are printed before [_recreate_log_entry] is called, and the
    one of the handler is not guarded: on a standard output that cannot take
    them, the file deleted between two calls of [log_event] is not written
    again, and [log_event] reports the failed print on the error channel. *)
Lemma deleted_file_not_recreated :
  let s1 := snd (log_event "15551234567" "hello" None ascii_stdout_logger) in
  let r := log_event "15551234567" "again" None
             (unlink "call-logs/15551234567.txt" s1) in
  read_file s1 "call-logs/15551234567.txt"
  = Some ("[2026-01-02 03:04:05.678] hello" +:+ nl)
  /\ fst r = Ok tt
  /\ read_file (snd r) "call-logs/15551234567.txt" = None
  /\ stdio (snd r) = [DiagSyncLoggingFailed "15551234567" UnicodeEncodeError].
Proof.
  cbv zeta.
  repeat match goal with |- _ /\ _ => split end; vm_compute; reflexivity.
Qed.

Lemma length_stamped_line d x :
  valid_datetime d = true ->
  String.length (stamped_line d x) = 27 + String.length x.
Proof.
  intros Hd. destruct (timestamp_ms_shape d Hd) as [_ Hlen].
  unfold stamped_line. rewrite !length_app_s, Hlen. cbn [String.length nl]. lia.
Qed.

Lemma length_elapsed_prefix e : 0 < String.length (elapsed_prefix e).
Proof. unfold elapsed_prefix. rewrite app_cons. cbn [String.length]. lia. Qed.

Lemma annotated_line_differs d1 d2 e msg :
  valid_datetime d1 = true -> valid_datetime d2 = true ->
  stamped_line d2 msg <> stamped_line d1 (elapsed_prefix e +:+ msg).
Proof.
  intros H1 H2 Heq. apply (f_equal String.length) in Heq.
  rewrite !length_stamped_line, length_app_s in Heq by assumption.
  pose proof (length_elapsed_prefix e). lia.
Qed.

(** C10. [log_event] with a start time appends the message with its
    elapsed-time annotation through the cached handle; when verification then
    finds the file missing or empty (and standard output takes its warning),
    the line [_recreate_log_entry] writes carries the bare message only, and
    differs from the appended one. *)
Theorem recreated_line_lacks_elapsed (s : State) (key message : string)
    (t0 : Z) (fd i : nat) (c : string) :
  quiet s -> stdout_quiet s -> valid_clock s ->
  file_handles s !! key = Some fd ->
  open_files s !! fd = Some {| fo_ino := i; fo_buf := "" |} ->
  fs_inodes s !! i = Some c ->
  i < next_id s ->
  fs_names s !! _get_log_filename s key <> Some i ->
  missing_or_empty s (_get_log_filename s key) ->
  let elapsed := (perf_clock s (clock_reads s) - t0)%Z in
  let appended :=
    stamped_line (wall_clock s (S (clock_reads s)))
      (elapsed_prefix elapsed +:+ message) in
  let recreated := stamped_line (wall_clock s (S (S (clock_reads s)))) message in
  exists s',
    log_event key message (Some t0) s = (Ok tt, s')
    /\ fs_inodes s' !! i = Some (c +:+ appended)
    /\ read_file s' (_get_log_filename s key) = Some recreated
    /\ recreated <> appended.
Proof.
  intros Hq Hp Hv Hfd Ho Hino Hfresh Hne He elapsed appended recreated.
  destruct (log_event_orphaned s key message (Some t0) fd i c
              Hq Hp Hfd Ho Hino Hfresh Hne He) as (s' & Hrun & Hi & Hfile).
  exists s'. split; [exact Hrun|]. split; [exact Hi|]. split; [exact Hfile|].
  apply annotated_line_differs; apply Hv.
Qed.

Lemma recreated_line_lacks_elapsed_witness :
  let s1 := unlink "call-logs/15551234567.txt"
              (snd (log_event "15551234567" "hello" None sample_logger)) in
  exists s',
    log_event "15551234567" "again" (Some 0%Z) s1 = (Ok tt, s')
    /\ fs_inodes s' !! 0
       = Some (("[2026-01-02 03:04:05.678] hello" +:+ nl)
               +:+ "[2026-01-02 03:04:05.678] [  0.0012s] again" +:+ nl)
    /\ read_file s' "call-logs/15551234567.txt"
       = Some ("[2026-01-02 03:04:05.678] again" +:+ nl).
Proof.
  intros s1.
  assert (Hq : quiet s1) by (intros n; reflexivity).
  assert (Hp : stdout_quiet s1) by (intros n; reflexivity).
  assert (Hv : valid_clock s1) by (intros n; reflexivity).
  assert (Hfd : file_handles s1 !! "15551234567" = Some 1) by (vm_compute; reflexivity).
  assert (Ho : open_files s1 !! 1 = Some {| fo_ino := 0; fo_buf := "" |})
    by (vm_compute; reflexivity).
  assert (Hino : fs_inodes s1 !! 0 = Some ("[2026-01-02 03:04:05.678] hello" +:+ nl))
    by (vm_compute; reflexivity).
  assert (Hfresh : 0 < next_id s1) by (vm_compute; lia).
  assert (Hname : _get_log_filename s1 "15551234567" = "call-logs/15551234567.txt")
    by (vm_compute; reflexivity).
  assert (Hgone : fs_names s1 !! "call-logs/15551234567.txt" = None)
    by (vm_compute; reflexivity).
  assert (Hne : fs_names s1 !! _get_log_filename s1 "15551234567" <> Some 0)
    by (rewrite Hname, Hgone; discriminate).
  assert (He : missing_or_empty s1 (_get_log_filename s1 "15551234567"))
    by (unfold missing_or_empty; rewrite Hname, Hgone; exact I).
  destruct (recreated_line_lacks_elapsed s1 "15551234567" "again" 0 1 0 _
              Hq Hp Hv Hfd Ho Hino Hfresh Hne He) as (s' & Hrun & Hi & Hfile & _).
  exists s'. split; [exact Hrun|]. split.
  - rewrite Hi. vm_compute. reflexivity.
  - rewrite Hname in Hfile. rewrite Hfile. vm_compute. reflexivity.
Defined.

(* ===================================================================== *)
(** ** The relay: running the methods                                     *)
(* ===================================================================== *)

Ltac unfold_relay :=
  cbv beta delta
    [mbind mret Eff_bind Eff_ret raise gets modify try_except
     sink_fault_point loop_time datetime_utcnow create_task yield_
     call_log_event if_logger_log_event _append_turn_log _append_chunk_log
     _append_success_log run_task remote_request create_completion
     get_response_content create_stream_completion delta_content
     get_response_stream].

Ltac reduce_relay :=
  cbn beta iota zeta delta
    [set_turn_log set_chunk_log set_success_log set_pending set_yielded
     set_logged set_sink_writes set_time_reads
     turn_log chunk_log success_log pending yielded logged
     sink_fault sink_writes utc_clock loop_clock time_reads
     chunk_choices stream_chunks stream_end completion_choices
     fst snd Py.or_empty].

Ltac run_relay := unfold_relay; reduce_relay.

(** C8 (as the code has it). The row of a success-log line is the flattened
    message list when that has at most 1000 characters, and otherwise its
    first 1000 characters followed by three dots: at most 1003 characters. *)
Theorem success_row_cut (messages : list (gmap string string)) :
  success_row (Some messages)
  = (if 1000 <? String.length (flattened_rows messages)
     then Py.take 1000 (flattened_rows messages) +:+ "..."
     else flattened_rows messages)
  /\ success_row None = ""
  /\ String.length (success_row (Some messages)) <= 1003.
Proof.
  assert (Hrow : success_row (Some messages)
            = (if 1000 <? String.length (flattened_rows messages)
               then Py.take 1000 (flattened_rows messages) +:+ "..."
               else flattened_rows messages)).
  { destruct messages as [|m ms]; reflexivity. }
  split; [exact Hrow|]. split; [reflexivity|].
  rewrite Hrow. destruct (Nat.ltb_spec 1000 (String.length (flattened_rows messages))).
  - rewrite length_app_s, length_take_s.
    change (String.length "...") with 3. lia.
  - lia.
Qed.

(** A request whose flattened rendering has 1006 characters. *)
Lemma success_row_exceeds_1000 :
  String.length (success_row (Some long_messages)) = 1003.
Proof. vm_compute. reflexivity. Qed.

Lemma relayed_nothing r : relayed r [] [] = r.
Proof.
  destruct r. unfold relayed, set_yielded, set_pending. reduce_relay.
  now rewrite !app_nil_r.
Qed.

Lemma relayed_step r text task texts tasks :
  relayed (set_yielded (fun ys => ys ++ [text])
             (set_pending (fun q => q ++ [task]) r)) texts tasks
  = relayed r (text :: texts) (task :: tasks).
Proof.
  unfold relayed, set_yielded, set_pending. reduce_relay.
  now rewrite <- !app_assoc.
Qed.

Lemma full_text_cons text texts :
  full_text (text :: texts) = text +:+ full_text texts.
Proof.
  unfold full_text. destruct texts as [|t ts]; cbn [String.concat].
  - now rewrite app_empty_r.
  - now rewrite app_empty_l.
Qed.

(** The loop, whatever the stream does. *)
Lemma stream_loop_outcome model user chunks ending : forall seq full r,
  stream_loop model user chunks ending seq full r
  = (match snd (stream_outcome chunks ending) with
     | None => Ok (full +:+ full_text (fst (stream_outcome chunks ending)))
     | Some e => Raise e
     end,
     relayed r (fst (stream_outcome chunks ending))
       (chunk_tasks model user seq (fst (stream_outcome chunks ending)))).
Proof.
  induction chunks as [|chunk rest IH]; intros seq full r.
  - cbn [stream_loop stream_outcome fst snd chunk_tasks].
    rewrite relayed_nothing.
    destruct ending; [|reflexivity].
    unfold full_text. cbn [String.concat]. now rewrite app_empty_r.
  - cbn [stream_loop stream_outcome].
    destruct (chunk_choices chunk) as [|content choices] eqn:Hch.
    + cbv beta delta [mbind Eff_bind delta_content raise].
      rewrite Hch. cbn [fst snd chunk_tasks].
      now rewrite relayed_nothing.
    + destruct (stream_outcome rest ending) as [texts err] eqn:Hout.
      cbn [fst snd] in IH.
      destruct (Py.truthy (Py.or_empty content)) eqn:Htext.
      * cbv beta delta [mbind Eff_bind delta_content mret Eff_ret raise
                          try_except create_task yield_ modify].
        rewrite Hch, Htext. reduce_relay.
        rewrite IH. cbn [fst snd chunk_tasks].
        rewrite relayed_step, full_text_cons, app_assoc_s. reflexivity.
      * cbv beta delta [mbind Eff_bind delta_content mret Eff_ret raise].
        rewrite Hch, Htext. reduce_relay. rewrite IH. reflexivity.
Qed.

Lemma chunk_tasks_numbered model user texts : forall seq n text,
  texts !! n = Some text ->
  chunk_tasks model user seq texts !! n = Some (TaskChunkLog (seq + n) text model user).
Proof.
  induction texts as [|t ts IH]; intros seq n text Hn; [discriminate|].
  destruct n as [|n]; cbn [chunk_tasks] in *.
  - injection Hn as ->. now rewrite Nat.add_0_r.
  - change (chunk_tasks model user (S seq) ts !! n
            = Some (TaskChunkLog (seq + S n) text model user)).
    rewrite (IH (S seq) n text) by exact Hn. do 2 f_equal. lia.
Qed.

Lemma chunk_tasks_length model user texts : forall seq,
  length (chunk_tasks model user seq texts) = length texts.
Proof.
  induction texts as [|t ts IH]; intros seq; cbn [chunk_tasks length]; [reflexivity|].
  now rewrite IH.
Qed.

Lemma stream_refused model e messages logger user r :
  exists r',
    get_response_stream model (Raise e) messages logger user r = (Ok tt, r')
    /\ yielded r' = yielded r ++ [failure_sentinel]
    /\ success_log r' = success_log r
    /\ pending r' = pending r
    /\ turn_log r' = turn_log r /\ chunk_log r' = chunk_log r.
Proof.
  destruct logger as [l|];
    (eexists; split; [run_relay; reflexivity|]);
    reduce_relay; repeat split; reflexivity.
Qed.

Lemma stream_established model st messages logger user r :
  let texts := fst (stream_outcome (stream_chunks st) (stream_end st)) in
  let err := snd (stream_outcome (stream_chunks st) (stream_end st)) in
  exists r',
    get_response_stream model (Ok st) messages logger user r = (Ok tt, r')
    /\ yielded r'
       = yielded r ++ texts
         ++ match err with Some _ => [failure_sentinel] | None => [] end
    /\ pending r'
       = pending r ++ chunk_tasks model user 0 texts
         ++ match err with
            | None => [TaskTurnLog messages (Some (full_text texts)) true model user]
            | Some _ => []
            end
    /\ success_log r'
       = success_log r
         ++ (if sink_fault r (sink_writes r) then []
             else [success_line (utc_clock r (S (time_reads r))) (Some messages)
                     true model user])
    /\ turn_log r' = turn_log r /\ chunk_log r' = chunk_log r.
Proof.
  intros texts err. subst texts err.
  unfold get_response_stream.
  cbv beta delta [mbind mret Eff_bind Eff_ret raise gets modify try_except
     sink_fault_point loop_time datetime_utcnow create_task yield_
     call_log_event if_logger_log_event _append_success_log remote_request
     create_stream_completion].
  destruct logger as [l|]; reduce_relay;
    destruct (sink_fault r (sink_writes r)); reduce_relay;
    rewrite stream_loop_outcome;
    destruct (stream_outcome (stream_chunks st) (stream_end st)) as [texts [e|]];
    cbn [fst snd]; reduce_relay;
    (eexists; split; [reflexivity|]);
    unfold relayed, set_yielded, set_pending; reduce_relay;
    rewrite ?app_nil_r, ?app_empty_l, <- ?app_assoc; repeat split; reflexivity.
Qed.

(** What [create_completion] leaves in the sinks and in the task queue. *)
Lemma create_completion_sinks model remote messages logger user r :
  let res := create_completion model remote messages logger user r in
  success_log (snd res)
  = success_log r
    ++ match logger, remote with
       | Some _, Ok _ =>
           if sink_fault r (sink_writes r) then []
           else [success_line (utc_clock r (S (S (time_reads r)))) (Some messages)
                   false model user]
       | _, _ => []
       end
  /\ pending (snd res) = pending r
  /\ turn_log (snd res) = turn_log r
  /\ chunk_log (snd res) = chunk_log r
  /\ (forall e, remote = Raise e -> logger <> None -> fst res = Raise e).
Proof.
  intros res. subst res.
  destruct logger as [l|], remote as [c|e]; run_relay;
    rewrite ?app_nil_r; try (repeat split; try reflexivity; congruence).
  destruct (sink_fault r (sink_writes r)); reduce_relay;
    destruct c as [[|[[text|]|] choices]]; reduce_relay;
    rewrite ?app_nil_r; repeat split; try reflexivity; congruence.
Qed.


(* ===================================================================== *)
(** ** The relay: fragments, failures and sinks                            *)
(* ===================================================================== *)

Lemma outcome_of_complete_stream st :
  completes st ->
  stream_outcome (stream_chunks st) (stream_end st) = (fragments st, None).
Proof.
  intros [Hend Hwf]. unfold fragments. rewrite Hend.
  induction Hwf as [|c cs Hc Hcs IH]; [reflexivity|].
  cbn [stream_outcome map List.filter]. unfold fragment_text at 1 2.
  destruct (chunk_choices c) as [|content choices]; [congruence|].
  rewrite IH. reflexivity.
Qed.

(** C4. For a streaming call whose stream completes without error: the
    fragments with text, and only they, are yielded, unchanged and in order;
    the chunk-log task of the [n]-th of them carries sequence number [n],
    counted from 0; and the turn-log task, hence the turn record written when
    it runs, carries the concatenation of those fragments as response. *)
Theorem stream_relays_fragments (model : string)
    (messages : list (gmap string string)) (logger : option LoggerRef)
    (user : option string) (st : Stream) (r : Relay) :
  completes st ->
  exists r',
    get_response_stream model (Ok st) messages logger user r = (Ok tt, r')
    /\ yielded r' = yielded r ++ fragments st
    /\ pending r'
       = pending r ++ chunk_tasks model user 0 (fragments st)
         ++ [TaskTurnLog messages (Some (full_text (fragments st))) true model user]
    /\ (forall n text,
          fragments st !! n = Some text ->
          chunk_tasks model user 0 (fragments st) !! n
          = Some (TaskChunkLog n text model user))
    /\ length (chunk_tasks model user 0 (fragments st)) = length (fragments st)
    /\ (forall r1,
          sink_fault r1 (sink_writes r1) = false ->
          turn_log (snd (run_task (TaskTurnLog messages
                                     (Some (full_text (fragments st))) true
                                     model user) r1))
          = turn_log r1
            ++ [{| tr_timestamp := loop_clock r1 (time_reads r1);
                   tr_model := model; tr_streaming := true;
                   tr_user_phone_number := user; tr_messages := messages;
                   tr_response := full_text (fragments st);
                   tr_response_chars := String.length (full_text (fragments st)) |}]).
Proof.
  intros Hst.
  destruct (stream_established model st messages logger user r)
    as (r' & Hrun & Hy & Hp & _).
  rewrite (outcome_of_complete_stream st Hst) in Hy, Hp. cbn [fst snd] in Hy, Hp.
  rewrite app_nil_r in Hy.
  exists r'. split; [exact Hrun|]. split; [exact Hy|]. split; [exact Hp|].
  split; [|split].
  - intros n text Hn. apply (chunk_tasks_numbered model user _ 0 n text Hn).
  - apply chunk_tasks_length.
  - intros r1 Hf. run_relay. rewrite Hf. reduce_relay. reflexivity.
Qed.

Lemma stream_relays_fragments_witness :
  exists r',
    get_response_stream "gpt" (Ok hello_stream) sample_messages
      (Some TheCallLogger) (Some "15551234567") sample_relay = (Ok tt, r')
    /\ yielded r' = ["Hel"; "lo"; " world"]
    /\ pending r'
       = [TaskChunkLog 0 "Hel" "gpt" (Some "15551234567");
          TaskChunkLog 1 "lo" "gpt" (Some "15551234567");
          TaskChunkLog 2 " world" "gpt" (Some "15551234567");
          TaskTurnLog sample_messages (Some "Hello world") true "gpt"
            (Some "15551234567")].
Proof.
  assert (Hst : completes hello_stream).
  { split; [reflexivity|]. repeat constructor; discriminate. }
  destruct (stream_relays_fragments "gpt" sample_messages (Some TheCallLogger)
              (Some "15551234567") hello_stream sample_relay Hst)
    as (r' & Hrun & Hy & Hp & _).
  exists r'. split; [exact Hrun|]. split; [exact Hy | exact Hp].
Defined.

(** C3 (as the code has it). Whether the remote service refuses to establish
    the stream or the iteration over an established stream fails, the
    generator ends by yielding the failure sentinel once, after the fragments
    relayed so far (none in the first case); a stream that completes yields no
    sentinel. *)
Theorem stream_failure_yields_sentinel (model : string)
    (messages : list (gmap string string)) (logger : option LoggerRef)
    (user : option string) (r : Relay) :
  (forall e, exists r',
      get_response_stream model (Raise e) messages logger user r = (Ok tt, r')
      /\ yielded r' = yielded r ++ [failure_sentinel])
  /\ (forall st e,
        snd (stream_outcome (stream_chunks st) (stream_end st)) = Some e ->
        exists r',
          get_response_stream model (Ok st) messages logger user r = (Ok tt, r')
          /\ yielded r'
             = yielded r ++ fst (stream_outcome (stream_chunks st) (stream_end st))
               ++ [failure_sentinel])
  /\ (forall st,
        snd (stream_outcome (stream_chunks st) (stream_end st)) = None ->
        exists r',
          get_response_stream model (Ok st) messages logger user r = (Ok tt, r')
          /\ yielded r'
             = yielded r ++ fst (stream_outcome (stream_chunks st) (stream_end st))).
Proof.
  split; [|split].
  - intros e. destruct (stream_refused model e messages logger user r)
      as (r' & Hrun & Hy & _). eauto.
  - intros st e He.
    destruct (stream_established model st messages logger user r)
      as (r' & Hrun & Hy & _).
    rewrite He in Hy. eauto.
  - intros st He.
    destruct (stream_established model st messages logger user r)
      as (r' & Hrun & Hy & _).
    rewrite He, app_nil_r in Hy. eauto.
Qed.

Lemma stream_failure_yields_sentinel_witness :
  exists r',
    get_response_stream "gpt" (Ok broken_stream) sample_messages
      (Some TheCallLogger) None sample_relay = (Ok tt, r')
    /\ yielded r' = ["Hel"; failure_sentinel].
Proof.
  destruct (stream_failure_yields_sentinel "gpt" sample_messages
              (Some TheCallLogger) None sample_relay) as (_ & H & _).
  destruct (H broken_stream (RemoteError "connection reset") eq_refl)
    as (r' & Hrun & Hy).
  exists r'. split; [exact Hrun | exact Hy].
Defined.

(** A stream that cannot even be established still makes the generator yield
    the failure marker. *)
Lemma refused_stream_yields_marker :
  let res := get_response_stream "gpt" (Raise (RemoteError "refused"))
               sample_messages (Some TheCallLogger) None sample_relay in
  fst res = Ok tt /\ yielded (snd res) = [failure_sentinel].
Proof. cbv zeta. split; vm_compute; reflexivity. Qed.

Lemma get_response_stream_sinks model remote messages logger user r :
  let r' := snd (get_response_stream model remote messages logger user r) in
  success_log r'
  = success_log r
    ++ match remote with
       | Ok _ =>
           if sink_fault r (sink_writes r) then []
           else [success_line (utc_clock r (S (time_reads r))) (Some messages)
                   true model user]
       | Raise _ => []
       end
  /\ turn_log r' = turn_log r /\ chunk_log r' = chunk_log r.
Proof.
  destruct remote as [st|e]; cbv zeta.
  - destruct (stream_established model st messages logger user r)
      as (r' & -> & _ & _ & Hs & Ht & Hc). auto.
  - destruct (stream_refused model e messages logger user r)
      as (r' & -> & _ & Hs & _ & Ht & Hc). cbn [snd].
    rewrite app_nil_r. auto.
Qed.

(** C2 (as the code has it). A call whose request to the remote service
    raises, or is never issued, adds nothing to the success log; a call whose
    request returns adds one line, provided the write itself succeeds. For a
    streaming call the request is the creation of the stream: what happens
    later, while the stream is iterated, does not matter. *)
Theorem success_record_iff_request_returned (model : string)
    (messages : list (gmap string string)) (logger : option LoggerRef)
    (user : option string) (r : Relay) :
  (forall e,
      success_log (snd (create_completion model (Raise e) messages logger user r))
      = success_log r
      /\ success_log (snd (get_response_stream model (Raise e) messages logger user r))
         = success_log r)
  /\ (forall remote,
        success_log (snd (create_completion model remote messages None user r))
        = success_log r)
  /\ (sink_fault r (sink_writes r) = false ->
      (forall completion l,
          success_log (snd (create_completion model (Ok completion) messages
                              (Some l) user r))
          = success_log r
            ++ [success_line (utc_clock r (S (S (time_reads r)))) (Some messages)
                  false model user])
      /\ (forall st,
            success_log (snd (get_response_stream model (Ok st) messages logger
                                user r))
            = success_log r
              ++ [success_line (utc_clock r (S (time_reads r))) (Some messages)
                    true model user])).
Proof.
  split; [|split].
  - intros e. split.
    + destruct (create_completion_sinks model (Raise e) messages logger user r)
        as (H & _). rewrite H. destruct logger; apply app_nil_r.
    + destruct (get_response_stream_sinks model (Raise e) messages logger user r)
        as (H & _). rewrite H. apply app_nil_r.
  - intros remote.
    destruct (create_completion_sinks model remote messages None user r)
      as (H & _). rewrite H. apply app_nil_r.
  - intros Hf. split.
    + intros completion l.
      destruct (create_completion_sinks model (Ok completion) messages (Some l) user r)
        as (H & _). rewrite H, Hf. reflexivity.
    + intros st.
      destruct (get_response_stream_sinks model (Ok st) messages logger user r)
        as (H & _). rewrite H, Hf. reflexivity.
Qed.

Lemma success_record_iff_request_returned_witness :
  length (success_log (snd (create_completion "gpt" (Ok sample_completion)
                              sample_messages (Some TheCallLogger) None
                              sample_relay))) = 1
  /\ length (success_log (snd (get_response_stream "gpt" (Ok hello_stream)
                                 sample_messages (Some TheCallLogger) None
                                 sample_relay))) = 1.
Proof.
  destruct (success_record_iff_request_returned "gpt" sample_messages
              (Some TheCallLogger) None sample_relay) as (_ & _ & H).
  destruct (H eq_refl) as (Hc & Hs).
  rewrite (Hc sample_completion TheCallLogger), (Hs hello_stream).
  split; reflexivity.
Defined.

(** The stream is established, breaks during iteration, and the success log
    has its entry all the same. *)
Lemma broken_stream_has_success_record :
  let r' := snd (get_response_stream "gpt" (Ok broken_stream) sample_messages
                   (Some TheCallLogger) None sample_relay) in
  yielded r' = ["Hel"; failure_sentinel]
  /\ length (success_log r') = 1.
Proof. cbv zeta. split; vm_compute; reflexivity. Qed.




(* ===================================================================== *)
(** ** CallLogger: more on file names, failures and the cache *)
(* ===================================================================== *)

Lemma sall_sfilter p s : sall p (sfilter p s) = true.
Proof.
  induction s as [|c s IH]; [reflexivity|].
  cbn [sfilter]. destruct (p c) eqn:Hp; [|exact IH].
  cbn [sall]. now rewrite Hp.
Qed.

Lemma sfilter_of_all p s : sall p s = true -> sfilter p s = s.
Proof.
  induction s as [|c s IH]; [reflexivity|].
  cbn [sall sfilter]. intros [-> H]%andb_true_iff. now rewrite IH.
Qed.

(** X1. What [_get_log_filename] strips is gone for good: the cleaned number
    contains none of the five characters, cleaning it again changes nothing,
    and a caller number and its cleaned form name the same file. *)
Theorem safe_number_is_normal_form (s : State) (key : string) :
  sall (fun c => negb (stripped_char c)) (safe_number key) = true
  /\ safe_number (safe_number key) = safe_number key
  /\ _get_log_filename s (safe_number key) = _get_log_filename s key.
Proof.
  assert (H1 : sall (fun c => negb (stripped_char c)) (safe_number key) = true).
  { rewrite safe_number_token. apply sall_sfilter. }
  assert (H2 : safe_number (safe_number key) = safe_number key).
  { rewrite (safe_number_token (safe_number key)). unfold normalized_token.
    now apply sfilter_of_all. }
  split; [exact H1|]. split; [exact H2|].
  unfold _get_log_filename. now rewrite H2.
Qed.

Lemma startswith_app c s t :
  Py.startswith c (s +:+ t) = match s with
                              | EmptyString => Py.startswith c t
                              | _ => Py.startswith c s
                              end.
Proof. destruct s; reflexivity. Qed.

(** X2. Where the file lies. A cleaned number that begins with a slash is
    taken by [os.path.join] as an absolute path: the log directory is
    dropped and the file lies outside it. Otherwise, for a log directory
    that is not empty and does not end in a slash, the file is
    [<log_directory>/<cleaned number>.txt]. *)
Theorem file_name_location (s : State) (key : string) :
  (Py.startswith "/" (safe_number key) = true ->
   _get_log_filename s key = safe_number key +:+ ".txt")
  /\ (Py.startswith "/" (safe_number key) = false ->
      log_directory s <> "" -> Py.endswith "/" (log_directory s) = false ->
      _get_log_filename s key
      = log_directory s +:+ "/" +:+ safe_number key +:+ ".txt").
Proof.
  unfold _get_log_filename, Py.path_join. rewrite startswith_app. split.
  - intros H. destruct (safe_number key); [discriminate|]. now rewrite H.
  - intros H Hd He.
    assert (Hs : Py.startswith "/" (match safe_number key with
                                    | "" => ".txt" | _ => safe_number key end) = false)
      by (destruct (safe_number key); [reflexivity | exact H]).
    destruct (safe_number key) eqn:Hk; rewrite ?H; cbn [Py.startswith] in *;
      rewrite He; destruct (log_directory s); try congruence; reflexivity.
Qed.

Lemma file_name_location_witness :
  _get_log_filename sample_logger "/etc/cron.d/+1" = "/etc/cron.d/1.txt"
  /\ _get_log_filename sample_logger "+1 (555)" = "call-logs/1555.txt".
Proof.
  split.
  - destruct (file_name_location sample_logger "/etc/cron.d/+1") as (H & _).
    rewrite H by (vm_compute; reflexivity). vm_compute. reflexivity.
  - destruct (file_name_location sample_logger "+1 (555)") as (_ & H).
    rewrite H; [vm_compute; reflexivity | vm_compute; reflexivity
               | vm_compute; discriminate | vm_compute; reflexivity].
Defined.

Ltac unfold_more :=
  cbv beta delta [log_file_exists_and_has_content]; unfold_bodies.



(** X4. A cached handle that is open on another inode than the one the file
    name now designates (the file was deleted and recreated) swallows the
    message: [log_event] returns without any diagnostic, the text goes to the
    old inode, and the file, being there and not empty, stays as it was. *)
Theorem stale_handle_loses_message (s : State) (key message : string)
    (st : option Z) (fd i j : nat) (c cj : string) :
  quiet s ->
  file_handles s !! key = Some fd ->
  open_files s !! fd = Some {| fo_ino := i; fo_buf := "" |} ->
  fs_inodes s !! i = Some c ->
  fs_names s !! _get_log_filename s key = Some j ->
  i <> j ->
  fs_inodes s !! j = Some cj -> cj <> "" ->
  exists s',
    log_event key message st s = (Ok tt, s')
    /\ read_file s' (_get_log_filename s key) = Some cj
    /\ fs_inodes s' !! i
       = Some (c +:+ stamped_line (wall_clock s (reads_before_append s st))
                       (log_data_of s message st))
    /\ stdio s' = stdio s.
Proof.
  intros Hq Hfd Ho Hino Hn Hij Hj Hcj. unfold quiet in Hq.
  pose proof (size_nonempty cj Hcj) as Hsz.
  unfold reads_before_append, log_data_of. unfold _get_log_filename in *.
  destruct st as [t0|];
    (eexists; split;
      [ run; exec ltac:(first [rewrite Hfd | rewrite Ho | rewrite Hq | rewrite Hino
                              | rewrite Hj | rewrite Hn | rewrite Hsz
                              | lookups | strings]);
        reflexivity | ]);
    repeat split; run;
    exec ltac:(first [rewrite Hn | rewrite Hino | rewrite Hj | lookups | strings]);
    reflexivity.
Qed.

Lemma stale_handle_loses_message_witness :
  exists s',
    log_event "15551234567" "third" None healed_logger = (Ok tt, s')
    /\ read_file s' "call-logs/15551234567.txt"
       = Some ("[2026-01-02 03:04:05.678] again" +:+ nl).
Proof.
  assert (Hq : quiet healed_logger) by (intros n; reflexivity).
  assert (Hname : _get_log_filename healed_logger "15551234567"
                  = "call-logs/15551234567.txt") by (vm_compute; reflexivity).
  destruct (stale_handle_loses_message healed_logger "15551234567" "third" None
              1 0 2
              (("[2026-01-02 03:04:05.678] hello" +:+ nl)
               +:+ "[2026-01-02 03:04:05.678] again" +:+ nl)
              ("[2026-01-02 03:04:05.678] again" +:+ nl))
    as (s' & Hrun & Hfile & _).
  - exact Hq.
  - vm_compute; reflexivity.
  - vm_compute; reflexivity.
  - vm_compute; reflexivity.
  - rewrite Hname. vm_compute; reflexivity.
  - lia.
  - vm_compute; reflexivity.
  - discriminate.
  - exists s'. rewrite Hname in Hfile. split; [exact Hrun | exact Hfile].
Defined.

Lemma exists_check_result (s : State) (key : string) :
  let res := log_file_exists_and_has_content key s in
  fst res
  = Ok (match read_file s (_get_log_filename s key) with
        | Some text => negb (fault s (syscalls s)) && (0 <? String.length text)
        | None => false
        end)
  /\ fs_names (snd res) = fs_names s
  /\ fs_inodes (snd res) = fs_inodes s
  /\ open_files (snd res) = open_files s
  /\ file_handles (snd res) = file_handles s
  /\ stdio (snd res) = stdio s.
Proof.
  cbv zeta. unfold_more. unfold read_file, _get_log_filename. reduce_state.
  destruct (fs_names s !! Py.path_join (log_directory s)
              (safe_number key +:+ ".txt")) as [j|] eqn:Hn;
    reduce_state; [|repeat split; reflexivity].
  destruct (fault s (syscalls s)); reduce_state; rewrite ?Hn; reduce_state;
    [destruct (fs_inodes s !! j); repeat split; reflexivity|].
  destruct (fs_inodes s !! j); reduce_state; repeat split; reflexivity.
Qed.

(** X5. [log_file_exists_and_has_content] answers [True] exactly when the
    file is there, [getsize] succeeds and the size is not zero; a failing
    [getsize] gives [False]. It changes neither the files nor the cache nor
    the diagnostics. *)
Theorem exists_check_outcome (s : State) (key : string) :
  let res := log_file_exists_and_has_content key s in
  fst res
  = Ok (match read_file s (_get_log_filename s key) with
        | Some text => negb (fault s (syscalls s)) && (0 <? String.length text)
        | None => false
        end)
  /\ fs_names (snd res) = fs_names s
  /\ fs_inodes (snd res) = fs_inodes s
  /\ open_files (snd res) = open_files s
  /\ file_handles (snd res) = file_handles s
  /\ stdio (snd res) = stdio s.
Proof. exact (exists_check_result s key). Qed.

(** X6. After a [log_event] on a host whose system calls succeed,
    [log_file_exists_and_has_content] for the same key answers [True]. *)
Theorem log_event_then_check (s : State) (key message : string) (st : option Z) :
  quiet s -> cache_coherent s key ->
  exists s1 s2,
    log_event key message st s = (Ok tt, s1)
    /\ log_file_exists_and_has_content key s1 = (Ok true, s2).
Proof.
  intros Hq Hc.
  destruct (log_event_coherent s key message st Hq Hc)
    as (s1 & fd & i & Hrun & Hfile & _ & _ & _ & Hn & Hdir & Hflt).
  destruct (exists_check_result s1 key) as (Hres & _).
  assert (Hname : _get_log_filename s1 key = _get_log_filename s key)
    by (unfold _get_log_filename; now rewrite Hdir).
  rewrite Hname, Hfile, Hflt, Hq in Hres. cbn [negb andb] in Hres.
  rewrite size_after_stamp in Hres.
  destruct (log_file_exists_and_has_content key s1) as [res s2] eqn:Hcheck.
  cbn [fst] in Hres. subst res. exists s1, s2. split; [exact Hrun | exact Hcheck].
Qed.

Lemma log_event_then_check_witness :
  exists s1 s2,
    log_event "15551234567" "hello" None sample_logger = (Ok tt, s1)
    /\ log_file_exists_and_has_content "15551234567" s1 = (Ok true, s2).
Proof.
  apply (log_event_then_check sample_logger "15551234567" "hello" None).
  - intros n; reflexivity.
  - exact I.
Defined.

(** X7. Closing and logging again: [close_caller_log] drops the key from the
    cache, closes the file object and leaves the file alone; the next
    [log_event] for the key opens a new handle, caches it, and appends to the
    same file after the text already there. *)
Theorem close_then_log_reopens (s : State) (key message : string)
    (st : option Z) (fd i : nat) :
  quiet s ->
  file_handles s !! key = Some fd ->
  open_files s !! fd = Some {| fo_ino := i; fo_buf := "" |} ->
  fs_names s !! _get_log_filename s key = Some i ->
  exists s1 s2 fd',
    close_caller_log key s = (Ok tt, s1)
    /\ file_handles s1 !! key = None
    /\ open_files s1 !! fd = None
    /\ read_file s1 (_get_log_filename s key) = read_file s (_get_log_filename s key)
    /\ log_event key message st s1 = (Ok tt, s2)
    /\ file_handles s2 !! key = Some fd'
    /\ read_file s2 (_get_log_filename s key)
       = Some (Py.or_empty (read_file s (_get_log_filename s key))
               +:+ stamped_line (wall_clock s1 (reads_before_append s1 st))
                     (log_data_of s1 message st)).
Proof.
  intros Hq Hfd Ho Hn.
  assert (Hclose : close_caller_log key s
                   = (Ok tt, set_file_handles (delete key)
                               (set_open_files (delete fd) s))).
  { run. exec ltac:(first [rewrite Hfd | rewrite Ho]). reflexivity. }
  set (s1 := set_file_handles (delete key) (set_open_files (delete fd) s)) in *.
  assert (Hq1 : quiet s1) by (intros n; apply Hq).
  assert (Hc1 : cache_coherent s1 key).
  { unfold cache_coherent, s1. reduce_state. now rewrite lookup_delete_eq. }
  destruct (log_event_coherent s1 key message st Hq1 Hc1)
    as (s2 & fd' & i' & Hrun & Hfile & Hfd' & _).
  exists s1, s2, fd'. split; [exact Hclose|].
  split; [unfold s1; reduce_state; apply lookup_delete_eq|].
  split; [unfold s1; reduce_state; apply lookup_delete_eq|].
  split; [reflexivity|]. split; [exact Hrun|]. split; [exact Hfd'|].
  exact Hfile.
Qed.

Lemma close_then_log_reopens_witness :
  let s0 := snd (log_event "15551234567" "hello" None sample_logger) in
  exists s1 s2,
    close_caller_log "15551234567" s0 = (Ok tt, s1)
    /\ file_handles s1 !! "15551234567" = None
    /\ log_event "15551234567" "again" None s1 = (Ok tt, s2)
    /\ read_file s2 "call-logs/15551234567.txt"
       = Some (("[2026-01-02 03:04:05.678] hello" +:+ nl)
               +:+ "[2026-01-02 03:04:05.678] again" +:+ nl).
Proof.
  intros s0.
  assert (Hname : _get_log_filename s0 "15551234567" = "call-logs/15551234567.txt")
    by (vm_compute; reflexivity).
  destruct (close_then_log_reopens s0 "15551234567" "again" None 1 0)
    as (s1 & s2 & fd' & Hclose & Hgone & _ & _ & Hrun & _ & Hfile).
  - intros n; reflexivity.
  - vm_compute; reflexivity.
  - vm_compute; reflexivity.
  - rewrite Hname. vm_compute; reflexivity.
  - exists s1, s2. split; [exact Hclose|]. split; [exact Hgone|].
    split; [exact Hrun|]. rewrite Hname in Hfile. rewrite Hfile.
    assert (Hs1 : s1 = set_file_handles (delete "15551234567")
                         (set_open_files (delete 1) s0)).
    { assert (H : close_caller_log "15551234567" s0
                  = (Ok tt, set_file_handles (delete "15551234567")
                              (set_open_files (delete 1) s0)))
        by (vm_compute; reflexivity).
      rewrite H in Hclose. now injection Hclose. }
    rewrite Hs1. vm_compute. reflexivity.
Defined.



(** X13. On a standard output that takes every line, [_verify_log_written]
    returns [True] whatever the file system does, also when the entry could
    not be recreated: [_recreate_log_entry] catches the errors of its system
    calls, so the [return False] of the handler is reached only when a print
    raises. *)
Theorem verification_reports_success (key message : string) (s : State) :
  stdout_quiet s -> fst (_verify_log_written key message s) = Ok true.
Proof.
  intros Hp. destruct (verify_returns_true key message s Hp) as (s' & ->).
  reflexivity.
Qed.

Lemma verification_reports_success_witness :
  let r := _verify_log_written "15551234567" "hello" failing_logger in
  fst r = Ok true
  /\ read_file (snd r) "call-logs/15551234567.txt" = None
  /\ stdio (snd r)
     = [DiagFileMissing "call-logs/15551234567.txt";
        DiagRecreateFailed "15551234567" OSError].
Proof.
  cbv zeta. split; [|split; vm_compute; reflexivity].
  apply (verification_reports_success "15551234567" "hello" failing_logger).
  intros n. reflexivity.
Defined.

(** X14. [append_log] with [include_timestamp=False], on a host whose system
    calls succeed, appends the text and a newline, nothing else, and does not
    read the clock. *)
Theorem append_log_without_timestamp (s : State) (key log_data : string) :
  quiet s -> cache_coherent s key ->
  exists s',
    append_log key log_data false s = (Ok tt, s')
    /\ read_file s' (_get_log_filename s key)
       = Some (Py.or_empty (read_file s (_get_log_filename s key))
               +:+ log_data +:+ nl)
    /\ clock_reads s' = clock_reads s
    /\ stdio s' = stdio s.
Proof.
  intros Hq Hc. unfold cache_coherent in Hc. unfold quiet in Hq.
  destruct (file_handles s !! key) as [fd|] eqn:Hfd.
  - destruct Hc as (i & Ho & Hn). unfold _get_log_filename in *.
    eexists; split;
      [ run; exec ltac:(first [rewrite Hfd | rewrite Ho | rewrite Hq
                              | rewrite Hn | lookups | strings]);
        reflexivity | ].
    repeat split; run; exec ltac:(first [rewrite Hn | lookups | strings]);
      reflexivity.
  - clear Hc. unfold _get_log_filename.
    destruct (fs_names s !! Py.path_join (log_directory s)
                (safe_number key +:+ ".txt")) as [i|] eqn:Hn;
    (eexists; split;
      [ run; exec ltac:(first [rewrite Hfd | rewrite Hq | rewrite Hn
                              | lookups | strings]);
        reflexivity | ]);
    repeat split; run; exec ltac:(first [rewrite Hn | lookups | strings]);
      reflexivity.
Qed.

Lemma append_log_without_timestamp_witness :
  exists s',
    append_log "15551234567" "raw text" false sample_logger = (Ok tt, s')
    /\ read_file s' "call-logs/15551234567.txt" = Some ("raw text" +:+ nl).
Proof.
  destruct (append_log_without_timestamp sample_logger "15551234567" "raw text")
    as (s' & Hrun & Hfile & _).
  - intros n; reflexivity.
  - exact I.
  - exists s'. split; [exact Hrun | exact Hfile].
Defined.

(** X15. A failing [os.fsync] in [append_log] is swallowed: whether it fails
    or not, the line written and flushed through the cached handle is in the
    file once, and nothing is reported or recreated. *)
Theorem fsync_failure_is_swallowed (s : State) (key log_data : string)
    (fd i : nat) :
  file_handles s !! key = Some fd ->
  open_files s !! fd = Some {| fo_ino := i; fo_buf := "" |} ->
  fs_names s !! _get_log_filename s key = Some i ->
  fault s (syscalls s) = false ->
  fault s (S (syscalls s)) = false ->
  exists s',
    append_log key log_data true s = (Ok tt, s')
    /\ read_file s' (_get_log_filename s key)
       = Some (Py.or_empty (read_file s (_get_log_filename s key))
               +:+ stamped_line (wall_clock s (clock_reads s)) log_data)
    /\ stdio s' = stdio s.
Proof.
  intros Hfd Ho Hn H0 H1. unfold _get_log_filename in *.
  destruct (fault s (S (S (syscalls s)))) eqn:H2;
    (eexists; split;
      [ run; exec ltac:(first [rewrite Hfd | rewrite Ho | rewrite H0 | rewrite H1
                              | rewrite H2 | rewrite Hn | lookups | strings]);
        reflexivity | ]);
    split; run; exec ltac:(first [rewrite Hn | lookups | strings]); reflexivity.
Qed.

Lemma fsync_failure_is_swallowed_witness :
  exists s',
    append_log "15551234567" "again" true fsync_fails_next_logger = (Ok tt, s')
    /\ fault fsync_fails_next_logger (S (S (syscalls fsync_fails_next_logger))) = true
    /\ read_file s' "call-logs/15551234567.txt"
       = Some (("[2026-01-02 03:04:05.678] hello" +:+ nl)
               +:+ "[2026-01-02 03:04:05.678] again" +:+ nl)
    /\ stdio s' = [].
Proof.
  assert (Hname : _get_log_filename fsync_fails_next_logger "15551234567"
                  = "call-logs/15551234567.txt") by (vm_compute; reflexivity).
  destruct (fsync_failure_is_swallowed fsync_fails_next_logger "15551234567"
              "again" 1 0) as (s' & Hrun & Hfile & Hout).
  - vm_compute; reflexivity.
  - vm_compute; reflexivity.
  - rewrite Hname. vm_compute; reflexivity.
  - vm_compute; reflexivity.
  - vm_compute; reflexivity.
  - exists s'. split; [exact Hrun|]. split; [vm_compute; reflexivity|].
    split; [|rewrite Hout; vm_compute; reflexivity].
    rewrite Hname in Hfile. rewrite Hfile. vm_compute. reflexivity.
Defined.



(** X9. Recovery and inspection bypass the cache: [_recreate_log_entry],
    [_verify_log_written] and [log_file_exists_and_has_content] leave
    [file_handles] as it is, on every path. *)
Theorem recovery_bypasses_cache (key message : string) (s : State) :
  file_handles (snd (_recreate_log_entry key message s)) = file_handles s
  /\ file_handles (snd (_verify_log_written key message s)) = file_handles s
  /\ file_handles (snd (log_file_exists_and_has_content key s)) = file_handles s.
Proof.
  split; [|split].
  - apply (keeps_recreate key message s).
  - apply (keeps_verify key message s).
  - apply (keeps_check key s).
Qed.

Lemma frame_keeps_inv {A} (m : M A) : keeps cache_frame m -> keeps inv_step m.
Proof. apply keeps_weaken. exact cache_frame_inv_step. Qed.

Lemma cache_inv_insert s s' k fd :
  cache_inv s ->
  file_handles s' = <[k:=fd]> (file_handles s) ->
  next_id s <= fd < next_id s' ->
  cache_inv s'.
Proof.
  intros (Hlt & Hinj) Hcache Hfd. split.
  - intros k' fd' H. rewrite Hcache in H.
    destruct (decide (k = k')) as [<-|Hne].
    + rewrite lookup_insert_eq in H. injection H as <-. lia.
    + rewrite lookup_insert_ne in H by exact Hne.
      specialize (Hlt k' fd' H). lia.
  - intros k1 k2 fd' H1 H2. rewrite Hcache in H1, H2.
    destruct (decide (k = k1)) as [<-|Hne1], (decide (k = k2)) as [<-|Hne2];
      try reflexivity.
    + rewrite lookup_insert_eq in H1. injection H1 as <-.
      rewrite lookup_insert_ne in H2 by exact Hne2.
      specialize (Hlt k2 fd H2). lia.
    + rewrite lookup_insert_eq in H2. injection H2 as <-.
      rewrite lookup_insert_ne in H1 by exact Hne1.
      specialize (Hlt k1 fd H1). lia.
    + rewrite lookup_insert_ne in H1 by exact Hne1.
      rewrite lookup_insert_ne in H2 by exact Hne2. eauto.
Qed.

Lemma get_file_handle_keeps_inv k : keeps inv_step (_get_file_handle k).
Proof.
  intros s Hinv.
  destruct (file_handles s !! k) as [fd|] eqn:Hc.
  - rewrite (get_file_handle_cached s k fd Hc). exact Hinv.
  - run. rewrite Hc. reduce_state.
    destruct (fault s (syscalls s)); reduce_state.
    + apply (cache_frame_inv_step s); [frame_step | exact Hinv].
    + destruct (fs_names s !! _); reduce_state; rewrite lookup_insert_eq;
        reduce_state;
        (eapply cache_inv_insert; [exact Hinv | reduce_state; reflexivity
                                  | reduce_state; lia]).
Qed.

Ltac by_frame := apply frame_keeps_inv.

Lemma append_log_keeps_inv k d t : keeps inv_step (append_log k d t).
Proof.
  unfold append_log, append_log_try.
  apply (keeps_try _ inv_step_trans).
  - apply (keeps_bind _ inv_step_trans); [apply get_file_handle_keeps_inv|intros fd].
    by_frame.
    apply (keeps_bind _ cache_frame_trans).
    { destruct t; [|keeps_frame].
      apply (keeps_bind _ cache_frame_trans); [intros s; frame_step|intros ?].
      keeps_frame. }
    intros entry.
    apply (keeps_bind _ cache_frame_trans); [apply keeps_write|intros _].
    apply (keeps_bind _ cache_frame_trans); [apply keeps_flush|intros _].
    apply (keeps_try _ cache_frame_trans); [apply keeps_fsync|intros ?; keeps_frame].
  - intros e. by_frame.
    apply (keeps_bind _ cache_frame_trans); [keeps_frame|intros _].
    apply (keeps_try _ cache_frame_trans); [apply keeps_recreate|intros ?; keeps_frame].
Qed.

Lemma log_event_keeps_inv k m st : keeps inv_step (log_event k m st).
Proof.
  unfold log_event.
  apply (keeps_bind _ inv_step_trans).
  - by_frame. destruct st as [t0|]; [|keeps_frame].
    apply (keeps_bind _ cache_frame_trans); [intros s; frame_step|intros ?].
    keeps_frame.
  - intros d. apply (keeps_try _ inv_step_trans); [|intros ?; by_frame; keeps_frame].
    apply (keeps_bind _ inv_step_trans); [apply append_log_keeps_inv|intros _].
    by_frame.
    apply (keeps_bind _ cache_frame_trans); [apply keeps_verify|intros _].
    keeps_frame.
Qed.

Lemma uncache_keeps_inv k : keeps inv_step (modify (set_file_handles (delete k))).
Proof.
  intros s (Hlt & Hinj). unfold modify. cbn [snd]. split; reduce_state.
  - intros k' fd H. apply lookup_delete_Some in H as [_ H]. eauto.
  - intros k1 k2 fd H1 H2.
    apply lookup_delete_Some in H1 as [_ H1].
    apply lookup_delete_Some in H2 as [_ H2]. eauto.
Qed.

Lemma close_keeps_inv k : keeps inv_step (close_caller_log k).
Proof.
  unfold close_caller_log.
  apply (keeps_bind _ inv_step_trans); [by_frame; keeps_frame|intros cached].
  destruct cached as [fd|]; [|by_frame; keeps_frame].
  apply (keeps_try _ inv_step_trans); [|intros ?; by_frame; keeps_frame].
  apply (keeps_bind _ inv_step_trans); [by_frame; apply keeps_close|intros _].
  apply uncache_keeps_inv.
Qed.

Lemma close_all_keeps_inv keys : keeps inv_step (close_all_logs keys).
Proof.
  induction keys as [|k keys IH]; cbn [close_all_logs].
  - by_frame. keeps_frame.
  - apply (keeps_bind _ inv_step_trans); [apply close_keeps_inv|intros _; exact IH].
Qed.

(** X10. The cache keeps its invariant through every method, whatever fails:
    every cached handle was allocated by [open], and two caller numbers never
    share one file object. *)
Theorem cache_invariant (s : State) :
  cache_inv s ->
  (forall key message st, cache_inv (snd (log_event key message st s)))
  /\ (forall key log_data t, cache_inv (snd (append_log key log_data t s)))
  /\ (forall key, cache_inv (snd (_get_file_handle key s)))
  /\ (forall key, cache_inv (snd (close_caller_log key s)))
  /\ (forall keys, cache_inv (snd (close_all_logs keys s))).
Proof.
  intros Hinv. split; [|split; [|split; [|split]]]; intros.
  - now apply log_event_keeps_inv.
  - now apply append_log_keeps_inv.
  - now apply get_file_handle_keeps_inv.
  - now apply close_keeps_inv.
  - now apply close_all_keeps_inv.
Qed.

Lemma cache_invariant_witness :
  cache_inv (snd (log_event "+1 (555)" "hello" None
                    (snd (log_event "1555" "hello" None sample_logger)))).
Proof.
  assert (H0 : cache_inv sample_logger).
  { split; intros *; change (file_handles sample_logger) with (∅ : gmap string nat);
      rewrite lookup_empty; discriminate. }
  destruct (cache_invariant sample_logger H0) as (H1 & _).
  destruct (cache_invariant _ (H1 "1555" "hello" None)) as (H2 & _).
  apply H2.
Defined.

Ltac split_fault s :=
  match goal with
  | |- context [fault s ?n] => destruct (fault s n) eqn:?
  end.

Lemma open_frame_refl s : open_frame s s.
Proof. split; [reflexivity|lia]. Qed.

Lemma open_frame_trans a b c : open_frame a b -> open_frame b c -> open_frame a c.
Proof. intros [H1 H2] [H3 H4]. split; [congruence|lia]. Qed.

Lemma allocated_step s s' :
  open_files_allocated s -> open_frame s s' -> open_files_allocated s'.
Proof.
  intros Ha [Ho Hn] fd Hfd. rewrite Ho. apply Ha. lia.
Qed.

Lemma guarded_bind {A B} (m : M A) (k : A -> M B) :
  (forall s, open_files_allocated s -> open_frame s (snd (m s))) ->
  (forall a s, open_files_allocated s -> open_frame s (snd (k a s))) ->
  forall s, open_files_allocated s -> open_frame s (snd ((m ≫= k) s)).
Proof.
  intros Hm Hk s Ha. unfold mbind, Eff_bind. specialize (Hm s Ha).
  destruct (m s) as [[a|e] s1]; cbn [snd] in *; [|exact Hm].
  eapply open_frame_trans; [exact Hm|]. apply Hk. eapply allocated_step; eauto.
Qed.

Lemma guarded_try {A} (body : M A) (handler : Exn -> M A) :
  (forall s, open_files_allocated s -> open_frame s (snd (body s))) ->
  (forall e s, open_files_allocated s -> open_frame s (snd (handler e s))) ->
  forall s, open_files_allocated s -> open_frame s (snd (try_except body handler s)).
Proof.
  intros Hb Hh s Ha. unfold try_except. specialize (Hb s Ha).
  destruct (body s) as [[a|e] s1]; cbn [snd] in *; [exact Hb|].
  eapply open_frame_trans; [exact Hb|]. apply Hh. eapply allocated_step; eauto.
Qed.

Lemma print_open_frame d s : open_frame s (snd (print d s)).
Proof.
  unfold print. destruct (stdout_fault s (stdout_writes s)); split; reduce_state;
    first [reflexivity | lia].
Qed.

(** The [with] block of [_recreate_log_entry]. *)
Lemma with_block_open_frame filename entry s :
  open_files_allocated s ->
  open_frame s
    (snd (with_open_append filename (fun f =>
            file_write f entry;; file_flush f;; os_fsync f) s)).
Proof.
  intros Hfresh.
  assert (H0 : open_files s !! next_id s = None) by (apply Hfresh; lia).
  assert (H1 : open_files s !! S (next_id s) = None) by (apply Hfresh; lia).
  destruct entry as [|c entry]; split.
  - run.
    destruct (fs_names s !! filename) as [j|] eqn:Hn;
    repeat (first [ split_fault s | rewrite Hn | lookups
                  | rewrite delete_insert_eq | rewrite insert_insert_eq
                  | rewrite app_empty_l ];
            reduce_state);
    try reflexivity; try (now apply delete_id).
  - run.
    destruct (fs_names s !! filename) as [j|] eqn:Hn;
    repeat (first [ split_fault s | rewrite Hn | lookups
                  | rewrite delete_insert_eq | rewrite insert_insert_eq
                  | rewrite app_empty_l ];
            reduce_state);
    lia.
  - run.
    destruct (fs_names s !! filename) as [j|] eqn:Hn;
    repeat (first [ split_fault s | rewrite Hn | lookups
                  | rewrite delete_insert_eq | rewrite insert_insert_eq
                  | rewrite app_empty_l ];
            reduce_state);
    try reflexivity; try (now apply delete_id).
  - run.
    destruct (fs_names s !! filename) as [j|] eqn:Hn;
    repeat (first [ split_fault s | rewrite Hn | lookups
                  | rewrite delete_insert_eq | rewrite insert_insert_eq
                  | rewrite app_empty_l ];
            reduce_state);
    lia.
Qed.

Lemma recreate_open_frame key message s :
  open_files_allocated s -> open_frame s (snd (_recreate_log_entry key message s)).
Proof.
  revert s. unfold _recreate_log_entry.
  apply guarded_try; [|intros e s _; apply print_open_frame].
  apply guarded_bind; [intros s _; apply open_frame_refl|intros filename].
  apply guarded_bind.
  { intros s _. unfold os_makedirs_dirname, fault_point.
    destruct (fault s (syscalls s)); split; reduce_state; first [reflexivity|lia]. }
  intros _. apply guarded_bind.
  { intros s _. unfold datetime_now. split; reduce_state; first [reflexivity|lia]. }
  intros now. apply guarded_bind; [|intros _ s _; apply print_open_frame].
  intros s. apply with_block_open_frame.
Qed.

(** X11. [_recreate_log_entry] leaves no file object open: whichever of its
    system calls fails and whatever its prints do, the [with] block has
    closed the file when the method returns or raises, and the open file
    objects are those from before. *)
Theorem recreate_leaves_no_file_open (s : State) (key message : string) :
  open_files_allocated s ->
  open_files (snd (_recreate_log_entry key message s)) = open_files s.
Proof.
  intros Hfresh. apply (recreate_open_frame key message s Hfresh).
Qed.

Lemma recreate_leaves_no_file_open_witness :
  open_files (snd (_recreate_log_entry "15551234567" "hello" sample_logger)) = ∅.
Proof.
  apply (recreate_leaves_no_file_open sample_logger "15551234567" "hello").
  intros fd _. apply lookup_empty.
Defined.

Lemma close_flushed_handle s k :
  handles_flushed s ->
  exists s1,
    close_caller_log k s = (Ok tt, s1)
    /\ file_handles s1 = delete k (file_handles s)
    /\ open_files s1
       = match file_handles s !! k with
         | Some fd => delete fd (open_files s)
         | None => open_files s
         end
    /\ fs_names s1 = fs_names s /\ fs_inodes s1 = fs_inodes s
    /\ stdio s1 = stdio s.
Proof.
  intros Hfl.
  destruct (file_handles s !! k) as [fd|] eqn:Hfd.
  - specialize (Hfl k fd Hfd).
    destruct (open_files s !! fd) as [[i buf]|] eqn:Ho.
    + cbn [fo_buf] in Hfl. subst buf.
      eexists; split;
        [run; exec ltac:(first [rewrite Hfd | rewrite Ho]); reflexivity|].
      reduce_state. repeat split; reflexivity.
    + eexists; split;
        [run; exec ltac:(first [rewrite Hfd | rewrite Ho]); reflexivity|].
      reduce_state. repeat split; try reflexivity. symmetry. now apply delete_id.
  - exists s. split; [run; rewrite Hfd; reflexivity|].
    repeat split; try reflexivity. symmetry. now apply delete_id.
Qed.

Lemma close_all_flushed keys : forall s,
  handles_flushed s ->
  exists s',
    close_all_logs keys s = (Ok tt, s')
    /\ (forall k, file_handles s' !! k
                  = if decide (k ∈ keys) then None else file_handles s !! k)
    /\ (forall k fd, k ∈ keys -> file_handles s !! k = Some fd ->
                     open_files s' !! fd = None)
    /\ (forall fd, open_files s' !! fd = None
                   \/ open_files s' !! fd = open_files s !! fd)
    /\ fs_names s' = fs_names s /\ fs_inodes s' = fs_inodes s
    /\ stdio s' = stdio s.
Proof.
  induction keys as [|k keys IH]; intros s Hfl.
  - exists s. split; [reflexivity|]. split.
    { intros k. rewrite decide_False; [reflexivity|]. apply not_elem_of_nil. }
    split; [intros k fd Hk; now apply elem_of_nil in Hk|].
    repeat split; auto.
  - destruct (close_flushed_handle s k Hfl)
      as (s1 & Hrun1 & Hc1 & Ho1 & Hn1 & Hi1 & Hout1).
    assert (Hfl1 : handles_flushed s1).
    { intros k' fd' H. rewrite Hc1 in H.
      apply lookup_delete_Some in H as [_ H]. specialize (Hfl k' fd' H).
      rewrite Ho1. destruct (file_handles s !! k) as [fd|]; [|exact Hfl].
      destruct (decide (fd = fd')) as [->|Hne].
      - now rewrite lookup_delete_eq.
      - now rewrite lookup_delete_ne. }
    destruct (IH s1 Hfl1) as (s' & Hrun & Hc & Hclosed & Ho & Hn & Hi & Hout).
    exists s'. split.
    { cbn [close_all_logs]. unfold mbind, Eff_bind. now rewrite Hrun1. }
    split.
    { intros k'. rewrite Hc, Hc1.
      destruct (decide (k' = k)) as [->|Hne].
      - rewrite lookup_delete_eq. rewrite (decide_True (P := k ∈ k :: keys));
          [now destruct (decide (k ∈ keys))|apply elem_of_cons; now left].
      - rewrite lookup_delete_ne by congruence.
        destruct (decide (k' ∈ keys)) as [Hin|Hnin].
        + rewrite decide_True; [reflexivity|apply elem_of_cons; now right].
        + rewrite decide_False; [reflexivity|].
          intros [?|?]%elem_of_cons; congruence. }
    split.
    { intros k' fd Hin Hfd.
      destruct (decide (k' = k)) as [->|Hne].
      - destruct (Ho fd) as [H|H]; [exact H|].
        rewrite H, Ho1, Hfd. apply lookup_delete_eq.
      - apply elem_of_cons in Hin as [?|Hin]; [congruence|].
        apply (Hclosed k' fd Hin). rewrite Hc1.
        now rewrite lookup_delete_ne by congruence. }
    split.
    { intros fd. destruct (Ho fd) as [H|H]; [now left|].
      rewrite H, Ho1. destruct (file_handles s !! k) as [fd0|]; [|now right].
      destruct (decide (fd0 = fd)) as [->|Hne].
      - left. apply lookup_delete_eq.
      - right. now apply lookup_delete_ne. }
    repeat split; congruence.
Qed.

(** X12. [close_all_logs], given every cached key and handles with nothing
    pending, returns with an empty cache and every cached file object
    closed, and changes no file. *)
Theorem close_all_logs_empties_cache (keys : list string) (s : State) :
  (forall k, is_Some (file_handles s !! k) -> k ∈ keys) ->
  handles_flushed s ->
  exists s',
    close_all_logs keys s = (Ok tt, s')
    /\ file_handles s' = ∅
    /\ (forall k fd, file_handles s !! k = Some fd -> open_files s' !! fd = None)
    /\ fs_names s' = fs_names s /\ fs_inodes s' = fs_inodes s
    /\ stdio s' = stdio s.
Proof.
  intros Hkeys Hfl.
  destruct (close_all_flushed keys s Hfl)
    as (s' & Hrun & Hc & Hclosed & _ & Hn & Hi & Hout).
  exists s'. split; [exact Hrun|]. split.
  { apply map_eq. intros k. rewrite Hc, lookup_empty.
    destruct (decide (k ∈ keys)) as [Hin|Hnin]; [reflexivity|].
    destruct (file_handles s !! k) eqn:Hk; [|reflexivity].
    exfalso. apply Hnin, Hkeys. now rewrite Hk. }
  split.
  { intros k fd Hk. apply (Hclosed k fd); [|exact Hk].
    apply Hkeys. now rewrite Hk. }
  auto.
Qed.

Lemma close_all_logs_empties_cache_witness :
  let s0 := snd (log_event "15551234567" "hello" None sample_logger) in
  exists s',
    close_all_logs ["15551234567"] s0 = (Ok tt, s')
    /\ file_handles s' = ∅
    /\ open_files s' !! 1 = None.
Proof.
  intros s0.
  assert (Hcache : file_handles s0 = <["15551234567" := 1]> ∅)
    by (vm_compute; reflexivity).
  assert (Hopen : open_files s0 !! 1 = Some {| fo_ino := 0; fo_buf := "" |})
    by (vm_compute; reflexivity).
  destruct (close_all_logs_empties_cache ["15551234567"] s0)
    as (s' & Hrun & Hempty & Hclosed & _).
  - intros k [fd Hk]. rewrite Hcache in Hk.
    destruct (decide (k = "15551234567")) as [->|Hne].
    + apply elem_of_cons; now left.
    + rewrite lookup_insert_ne, lookup_empty in Hk by congruence. discriminate.
  - intros k fd Hk. rewrite Hcache in Hk.
    destruct (decide (k = "15551234567")) as [->|Hne].
    + rewrite lookup_insert_eq in Hk. injection Hk as <-. now rewrite Hopen.
    + rewrite lookup_insert_ne, lookup_empty in Hk by congruence. discriminate.
  - exists s'. split; [exact Hrun|]. split; [exact Hempty|].
    apply (Hclosed "15551234567" 1). rewrite Hcache. apply lookup_insert_eq.
Defined.

(* ===================================================================== *)
(** ** The relay: more on sinks, outcomes and the queue *)
(* ===================================================================== *)

(** X16. The three sink coroutines are best effort: each returns without
    raising; when its write fails the file is as before; when it succeeds its
    own file gains the one entry; the two other files are never touched. *)
Theorem sinks_are_best_effort (r : Relay) (messages : list (gmap string string))
    (response : option string) (streaming : bool) (model : string)
    (user : option string) (seq : nat) (text : string) :
  let turn := _append_turn_log messages response streaming model user r in
  let chunk := _append_chunk_log seq text model user r in
  let success := _append_success_log (Some messages) streaming model user r in
  fst turn = Ok tt /\ fst chunk = Ok tt /\ fst success = Ok tt
  /\ (sink_fault r (sink_writes r) = true ->
      turn_log (snd turn) = turn_log r
      /\ chunk_log (snd chunk) = chunk_log r
      /\ success_log (snd success) = success_log r)
  /\ (sink_fault r (sink_writes r) = false ->
      length (turn_log (snd turn)) = S (length (turn_log r))
      /\ chunk_log (snd chunk) = chunk_log r ++ [chunk_line seq text model user]
      /\ length (success_log (snd success)) = S (length (success_log r)))
  /\ chunk_log (snd turn) = chunk_log r /\ success_log (snd turn) = success_log r
  /\ turn_log (snd chunk) = turn_log r /\ success_log (snd chunk) = success_log r
  /\ turn_log (snd success) = turn_log r /\ chunk_log (snd success) = chunk_log r.
Proof.
  cbv zeta. run_relay.
  destruct (sink_fault r (sink_writes r)); reduce_relay;
    rewrite ?length_app; cbn [length];
    repeat split; intros; try reflexivity; try discriminate; lia.
Qed.

(** Without a call logger. *)
(** X17. Without a call logger the non-streaming calls cannot work:
    [create_completion] and [get_response_content] raise [AttributeError]
    whatever the remote service would answer, and write, queue and log
    nothing. The streaming call, whose logger calls are guarded, runs
    normally and logs nothing. *)
Theorem no_logger_no_completion (model : string)
    (messages : list (gmap string string)) (user : option string)
    (remote : Result Completion) (r : Relay) :
  let res := create_completion model remote messages None user r in
  let res' := get_response_content model remote messages None user r in
  fst res = Raise AttributeError
  /\ fst res' = Raise AttributeError
  /\ success_log (snd res) = success_log r
  /\ pending (snd res') = pending r
  /\ logged (snd res) = logged r
  /\ (forall streamed, exists r',
        get_response_stream model streamed messages None user r = (Ok tt, r')
        /\ logged r' = logged r).
Proof.
  cbv zeta. split; [|split; [|split; [|split; [|split]]]];
    try (run_relay; reflexivity).
  intros [st|e].
  - destruct (stream_established model st messages None user r) as (r' & Hrun & _).
    exists r'. split; [exact Hrun|].
    revert Hrun. unfold get_response_stream.
    cbv beta delta [mbind mret Eff_bind Eff_ret raise gets modify try_except
       sink_fault_point loop_time datetime_utcnow create_task yield_
       call_log_event if_logger_log_event _append_success_log remote_request
       create_stream_completion].
    reduce_relay.
    destruct (sink_fault r (sink_writes r)); reduce_relay;
      rewrite stream_loop_outcome;
      destruct (stream_outcome (stream_chunks st) (stream_end st)) as [texts [e|]];
      cbn [fst snd]; reduce_relay; intros [= <-];
      unfold relayed, set_yielded, set_pending; reduce_relay; reflexivity.
  - eexists. split; [run_relay; reflexivity|]. reflexivity.
Qed.

(** X18. Outcomes of [create_completion] with a call logger: an error of the
    remote service is logged as failure and raised again unchanged; a
    completion whose first message has text is returned as it is, its length
    logged; one whose first message has no content raises [TypeError] after
    the success line was written; one without choices, or without first
    message, is returned. *)
Theorem create_completion_outcomes (model : string)
    (messages : list (gmap string string)) (l : LoggerRef)
    (user : option string) (r : Relay) :
  let t0 := loop_clock r (time_reads r) in
  let t1 := loop_clock r (S (time_reads r)) in
  (forall e,
      let res := create_completion model (Raise e) messages (Some l) user r in
      fst res = Raise e
      /\ logged (snd res)
         = logged r ++ [(user, MsgCompletionStart model);
                        (user, MsgCompletionParams);
                        (user, MsgCompletionFailed (t1 - t0) e)])
  /\ (forall text choices,
        let c := {| completion_choices := Some (Some text) :: choices |} in
        let res := create_completion model (Ok c) messages (Some l) user r in
        fst res = Ok c
        /\ logged (snd res)
           = logged r ++ [(user, MsgCompletionStart model);
                          (user, MsgCompletionParams);
                          (user, MsgCompletionDone (t1 - t0));
                          (user, MsgResponseLength (String.length text))])
  /\ (forall choices,
        let c := {| completion_choices := Some None :: choices |} in
        let res := create_completion model (Ok c) messages (Some l) user r in
        fst res = Raise TypeError
        /\ (sink_fault r (sink_writes r) = false ->
            length (success_log (snd res)) = S (length (success_log r))))
  /\ (forall c,
        match completion_choices c with
        | [] | None :: _ => True
        | _ => False
        end ->
        fst (create_completion model (Ok c) messages (Some l) user r) = Ok c).
Proof.
  cbv zeta. split; [|split; [|split]].
  - intros e. run_relay. rewrite <- !app_assoc. split; reflexivity.
  - intros text choices. run_relay.
    destruct (sink_fault r (sink_writes r)); reduce_relay;
      rewrite <- !app_assoc; split; reflexivity.
  - intros choices. run_relay.
    destruct (sink_fault r (sink_writes r)); reduce_relay;
      (split; [reflexivity|]); intros H; try discriminate.
    rewrite length_app. cbn [length]. lia.
  - intros [[|[content|] choices]] H; try contradiction; run_relay;
      destruct (sink_fault r (sink_writes r)); reflexivity.
Qed.

(** X19. [get_response_content] returns only text: whenever it returns, the
    content is the text of the first choice and one turn-log task with that
    text, marked non-streaming, was queued; whenever it raises, nothing was
    queued; a completion without choices raises [IndexError]. *)
Theorem get_response_content_outcomes (model : string)
    (messages : list (gmap string string)) (logger : option LoggerRef)
    (user : option string) (remote : Result Completion) (r : Relay) :
  let res := get_response_content model remote messages logger user r in
  (forall content,
      fst res = Ok content ->
      exists text c choices,
        content = Some text
        /\ remote = Ok c
        /\ completion_choices c = Some (Some text) :: choices
        /\ pending (snd res)
           = pending r ++ [TaskTurnLog messages (Some text) false model user])
  /\ (forall e, fst res = Raise e -> pending (snd res) = pending r)
  /\ (forall l c, logger = Some l -> remote = Ok c ->
                  completion_choices c = [] -> fst res = Raise IndexError).
Proof.
  cbv zeta. split; [|split].
  - intros content.
    destruct logger as [l|], remote as [c|e]; run_relay; try discriminate.
    destruct (sink_fault r (sink_writes r)); reduce_relay;
      destruct c as [[|[[text|]|] choices]]; reduce_relay; try discriminate;
      intros [= <-]; eexists text, _, choices; repeat split; reflexivity.
  - intros e0.
    destruct logger as [l|], remote as [c|e]; run_relay; try reflexivity.
    destruct (sink_fault r (sink_writes r)); reduce_relay;
      destruct c as [[|[[text|]|] choices]]; reduce_relay; try discriminate;
      reflexivity.
  - intros l c -> -> Hc. destruct c as [choices]. cbn in Hc. subst choices.
    run_relay. destruct (sink_fault r (sink_writes r)); reflexivity.
Qed.


(** Running chunk-log tasks touches the chunk log and the count of sink
    writes, nothing else. *)
Lemma run_chunk_tasks model user texts : forall seq r,
  let r' := foldl (fun acc t => snd (run_task t acc)) r
              (chunk_tasks model user seq texts) in
  turn_log r' = turn_log r /\ pending r' = pending r
  /\ sink_fault r' = sink_fault r /\ time_reads r' = time_reads r
  /\ loop_clock r' = loop_clock r
  /\ sink_writes r' = sink_writes r + length texts
  /\ (sinks_quiet r ->
      chunk_log r' = chunk_log r ++ chunk_lines model user seq texts).
Proof.
  induction texts as [|text texts IH]; intros seq r; cbv zeta.
  - cbn [chunk_tasks foldl chunk_lines length]. rewrite app_nil_r, Nat.add_0_r.
    repeat split; reflexivity.
  - cbn [chunk_tasks foldl chunk_lines length].
    set (r1 := snd (run_task (TaskChunkLog seq text model user) r)).
    assert (H1 : turn_log r1 = turn_log r /\ pending r1 = pending r
                 /\ sink_fault r1 = sink_fault r /\ time_reads r1 = time_reads r
                 /\ loop_clock r1 = loop_clock r
                 /\ sink_writes r1 = S (sink_writes r)
                 /\ (sinks_quiet r ->
                     chunk_log r1 = chunk_log r ++ [chunk_line seq text model user])).
    { unfold r1. run_relay. destruct (sink_fault r (sink_writes r)) eqn:Hf;
        reduce_relay; repeat split; try reflexivity.
      intros Hq. now rewrite Hq in Hf. }
    destruct H1 as (Ht & Hs & Hf & Htr & Hl & Hw & Hc).
    destruct (IH (S seq) r1) as (Ht' & Hs' & Hf' & Htr' & Hl' & Hw' & Hc').
    repeat split; try congruence; [lia|].
    intros Hq. rewrite Hc'; [|intros n; rewrite Hf; apply Hq].
    rewrite (Hc Hq), <- app_assoc. reflexivity.
Qed.

Lemma run_pending_app r tasks :
  pending r = tasks ->
  run_pending r
  = foldl (fun acc t => snd (run_task t acc)) (set_pending (fun _ => []) r) tasks.
Proof. intros <-. reflexivity. Qed.

Lemma chunk_lines_numbered model user texts : forall seq n text,
  texts !! n = Some text ->
  chunk_lines model user seq texts !! n = Some (chunk_line (seq + n) text model user).
Proof.
  induction texts as [|t ts IH]; intros seq n text Hn; [discriminate|].
  destruct n as [|n]; cbn [chunk_lines] in *.
  - injection Hn as ->. now rewrite Nat.add_0_r.
  - change (chunk_lines model user (S seq) ts !! n
            = Some (chunk_line (seq + S n) text model user)).
    rewrite (IH (S seq) n text) by exact Hn. do 2 f_equal. lia.
Qed.

Lemma stream_environment model remote messages logger user r :
  sink_fault (snd (get_response_stream model remote messages logger user r))
  = sink_fault r.
Proof.
  destruct remote as [st|e].
  - unfold get_response_stream.
    cbv beta delta [mbind mret Eff_bind Eff_ret raise gets modify try_except
       sink_fault_point loop_time datetime_utcnow create_task yield_
       call_log_event if_logger_log_event _append_success_log remote_request
       create_stream_completion].
    destruct logger as [l|]; reduce_relay;
      destruct (sink_fault r (sink_writes r)); reduce_relay;
      rewrite stream_loop_outcome;
      destruct (stream_outcome (stream_chunks st) (stream_end st)) as [texts [e|]];
      cbn [fst snd]; reduce_relay;
      unfold relayed, set_yielded, set_pending; reduce_relay; reflexivity.
  - destruct logger; run_relay; reflexivity.
Qed.

(** X21. When the event loop runs the queue left by a completed stream, and
    the sink writes succeed, the chunk log gains the lines of the fragments
    in the order of emission, the [n]-th with sequence number [n], and the
    turn log gains one record with the full text, its length, the streaming
    flag and the messages. *)
Theorem queue_writes_in_order (model : string)
    (messages : list (gmap string string)) (logger : option LoggerRef)
    (user : option string) (st : Stream) (r : Relay) :
  completes st -> sinks_quiet r -> pending r = [] ->
  let r' := run_pending (snd (get_response_stream model (Ok st) messages logger
                                user r)) in
  pending r' = []
  /\ chunk_log r' = chunk_log r ++ chunk_lines model user 0 (fragments st)
  /\ (forall n text,
        fragments st !! n = Some text ->
        chunk_lines model user 0 (fragments st) !! n
        = Some (chunk_line n text model user))
  /\ exists record,
       turn_log r' = turn_log r ++ [record]
       /\ tr_response record = full_text (fragments st)
       /\ tr_response_chars record = String.length (full_text (fragments st))
       /\ tr_streaming record = true
       /\ tr_messages record = messages.
Proof.
  intros Hst Hq Hp. cbv zeta.
  pose proof (stream_environment model (Ok st) messages logger user r) as Henv.
  destruct (stream_established model st messages logger user r)
    as (r1 & Hrun & _ & Hpend & _ & Ht & Hc).
  rewrite Hrun in *. cbn [snd] in *.
  rewrite (outcome_of_complete_stream st Hst), Hp in Hpend.
  cbn [fst snd app] in Hpend.
  rewrite (run_pending_app r1 _ Hpend), foldl_app.
  set (r2 := set_pending (fun _ => []) r1).
  assert (Hq2 : sinks_quiet r2) by (intros n; unfold r2; reduce_relay; rewrite Henv; apply Hq).
  destruct (run_chunk_tasks model user (fragments st) 0 r2)
    as (Ht3 & Hp3 & Hf3 & _ & _ & _ & Hc3).
  specialize (Hc3 Hq2).
  set (r3 := foldl (fun acc t => snd (run_task t acc)) r2
               (chunk_tasks model user 0 (fragments st))) in *.
  cbn [foldl]. run_relay. rewrite Hf3. unfold sinks_quiet in Hq2. rewrite Hq2.
  reduce_relay. split; [exact Hp3|]. split.
  { rewrite Hc3. unfold r2. reduce_relay. now rewrite Hc. }
  split; [intros n text Hn; apply (chunk_lines_numbered model user _ 0 n text Hn)|].
  eexists. split.
  { rewrite Ht3. unfold r2. reduce_relay. rewrite Ht. reflexivity. }
  repeat split; reflexivity.
Qed.

(** X22. A streaming call that fails, at creation or during iteration, queues
    chunk-log tasks only: the turn log is as before also after the event loop
    has run the queue. *)
Theorem failed_stream_leaves_no_turn_record (model : string)
    (messages : list (gmap string string)) (logger : option LoggerRef)
    (user : option string) (remote : Result Stream) (r : Relay) :
  pending r = [] ->
  match remote with
  | Raise _ => True
  | Ok st => snd (stream_outcome (stream_chunks st) (stream_end st)) <> None
  end ->
  let r1 := snd (get_response_stream model remote messages logger user r) in
  turn_log (run_pending r1) = turn_log r
  /\ forall t, t ∈ pending r1 -> exists seq text, t = TaskChunkLog seq text model user.
Proof.
  intros Hp Hfail. cbv zeta. destruct remote as [st|e].
  - destruct (stream_established model st messages logger user r)
      as (r1 & Hrun & _ & Hpend & _ & Ht & _).
    rewrite Hrun. cbn [snd].
    destruct (stream_outcome (stream_chunks st) (stream_end st)) as [texts [e|]];
      cbn [fst snd] in *; [|congruence].
    rewrite Hp, app_nil_r in Hpend. cbn [app] in Hpend. split.
    + rewrite (run_pending_app r1 _ Hpend).
      destruct (run_chunk_tasks model user texts 0 (set_pending (fun _ => []) r1))
        as (Ht3 & _). rewrite Ht3. reduce_relay. exact Ht.
    + intros t. rewrite Hpend. clear. generalize 0.
      induction texts as [|x xs IH]; intros seq; cbn [chunk_tasks].
      * intros H. now apply elem_of_nil in H.
      * intros [->|H]%elem_of_cons; [eauto|]. apply (IH (S seq) H).
  - destruct (stream_refused model e messages logger user r)
      as (r1 & Hrun & _ & _ & Hpend & Ht & _).
    rewrite Hrun. cbn [snd]. rewrite Hp in Hpend. split.
    + rewrite (run_pending_app r1 [] Hpend). cbn [foldl]. reduce_relay. exact Ht.
    + intros t. rewrite Hpend. intros H. now apply elem_of_nil in H.
Qed.

Lemma failed_stream_leaves_no_turn_record_witness :
  let r1 := snd (get_response_stream "gpt" (Ok broken_stream) sample_messages
                   (Some TheCallLogger) None sample_relay) in
  turn_log (run_pending r1) = []
  /\ chunk_log (run_pending r1) = [chunk_line 0 "Hel" "gpt" None].
Proof.
  cbv zeta.
  destruct (failed_stream_leaves_no_turn_record "gpt" sample_messages
              (Some TheCallLogger) None (Ok broken_stream) sample_relay eq_refl)
    as (H & _).
  - discriminate.
  - split; [exact H|]. vm_compute. reflexivity.
Defined.

Lemma queue_writes_in_order_witness :
  let r' := run_pending (snd (get_response_stream "gpt" (Ok hello_stream)
                                sample_messages (Some TheCallLogger) None
                                sample_relay)) in
  chunk_log r'
  = [chunk_line 0 "Hel" "gpt" None; chunk_line 1 "lo" "gpt" None;
     chunk_line 2 " world" "gpt" None]
  /\ exists record, turn_log r' = [record] /\ tr_response record = "Hello world".
Proof.
  cbv zeta.
  assert (Hst : completes hello_stream).
  { split; [reflexivity|]. repeat constructor; discriminate. }
  destruct (queue_writes_in_order "gpt" sample_messages (Some TheCallLogger) None
              hello_stream sample_relay Hst (fun n => eq_refl) eq_refl)
    as (_ & Hc & _ & record & Ht & Hr & _).
  split; [exact Hc|]. exists record. split; [exact Ht | exact Hr].
Defined.

Lemma sall_app p s t : sall p (s +:+ t) = sall p s && sall p t.
Proof.
  induction s as [|c s IH]; [reflexivity|].
  rewrite app_cons. cbn [sall]. rewrite IH. now rewrite andb_assoc.
Qed.

Lemma sall_impl (p q : ascii -> bool) s :
  (forall c, p c = true -> q c = true) -> sall p s = true -> sall q s = true.
Proof.
  intros H. induction s as [|c s IH]; [reflexivity|].
  cbn [sall]. intros [Hc Hs]%andb_true_iff. now rewrite (H c Hc), IH.
Qed.

Lemma replace_removes old new s :
  sall (fun c => negb (Ascii.eqb c old)) new = true ->
  sall (fun c => negb (Ascii.eqb c old)) (Py.replace old new s) = true.
Proof.
  intros Hnew. induction s as [|c s IH]; [reflexivity|].
  cbn [Py.replace]. destruct (Ascii.eqb c old) eqn:Hc.
  - now rewrite sall_app, Hnew, IH.
  - cbn [sall]. now rewrite Hc, IH.
Qed.

Lemma replace_preserves p old new s :
  sall p new = true -> sall p s = true -> sall p (Py.replace old new s) = true.
Proof.
  intros Hnew. induction s as [|c s IH]; [reflexivity|].
  cbn [Py.replace sall]. intros [Hc Hs]%andb_true_iff.
  destruct (Ascii.eqb c old).
  - now rewrite sall_app, Hnew, IH.
  - cbn [sall]. now rewrite Hc, IH.
Qed.

Lemma lstrip_preserves p s : sall p s = true -> sall p (Py.lstrip s) = true.
Proof.
  induction s as [|c s IH]; [reflexivity|].
  cbn [Py.lstrip]. destruct (Py.isspace c); [|auto].
  cbn [sall]. intros [_ Hs]%andb_true_iff. auto.
Qed.

Lemma rstrip_preserves p s : sall p s = true -> sall p (Py.rstrip s) = true.
Proof.
  induction s as [|c s IH]; [reflexivity|].
  cbn [Py.rstrip sall]. intros [Hc Hs]%andb_true_iff. specialize (IH Hs).
  destruct (Py.rstrip s) as [|c' s'].
  - destruct (Py.isspace c); [reflexivity|]. cbn [sall]. now rewrite Hc.
  - cbn [sall] in *. now rewrite Hc, IH.
Qed.

Lemma lstrip_first s : not_space (first_char (Py.lstrip s)).
Proof.
  induction s as [|c s IH]; [exact I|].
  cbn [Py.lstrip]. destruct (Py.isspace c) eqn:Hc; [exact IH|exact Hc].
Qed.

Lemma rstrip_first s :
  not_space (first_char s) -> not_space (first_char (Py.rstrip s)).
Proof.
  destruct s as [|c s]; [auto|]. cbn [Py.rstrip first_char not_space].
  intros Hc. destruct (Py.rstrip s); [rewrite Hc|]; exact Hc.
Qed.

Lemma rstrip_last s : not_space (last_char (Py.rstrip s)).
Proof.
  induction s as [|c s IH]; [exact I|].
  cbn [Py.rstrip]. destruct (Py.rstrip s) as [|c' s'] eqn:Hr.
  - destruct (Py.isspace c) eqn:Hc; [exact I|exact Hc].
  - exact IH.
Qed.

Lemma flatten_no_newline text : sall not_newline (flatten_text text) = true.
Proof.
  unfold flatten_text, Py.strip.
  apply rstrip_preserves, lstrip_preserves.
  assert (Hlf : sall (fun c => negb (Ascii.eqb c "010"))
                  (Py.replace "013" " " (Py.replace "010" " " text)) = true).
  { apply replace_preserves; [reflexivity|]. now apply replace_removes. }
  assert (Hcr : sall (fun c => negb (Ascii.eqb c "013"))
                  (Py.replace "013" " " (Py.replace "010" " " text)) = true).
  { now apply replace_removes. }
  revert Hlf Hcr. generalize (Py.replace "013" " " (Py.replace "010" " " text)).
  intros s. induction s as [|c s IH]; [reflexivity|].
  cbn [sall]. intros [H1 Hs1]%andb_true_iff [H2 Hs2]%andb_true_iff.
  rewrite (IH Hs1 Hs2), andb_true_r. unfold not_newline, is_newline.
  destruct (Ascii.eqb c "010"), (Ascii.eqb c "013"); auto.
Qed.

(** X23. The flattened text of a chunk or of a message content contains no
    line feed and no carriage return, and neither begins nor ends with white
    space. *)
Theorem flatten_text_is_one_trimmed_line (text : string) :
  sall not_newline (flatten_text text) = true
  /\ not_space (first_char (flatten_text text))
  /\ not_space (last_char (flatten_text text)).
Proof.
  split; [apply flatten_no_newline|]. unfold flatten_text, Py.strip. split.
  - apply rstrip_first, lstrip_first.
  - apply rstrip_last.
Qed.

Lemma all_digits_no_newline s : all_digits s = true -> sall not_newline s = true.
Proof.
  induction s as [|c s IH]; [reflexivity|].
  cbn [all_digits sall]. intros [Hc Hs]%andb_true_iff. rewrite (IH Hs), andb_true_r.
  unfold is_digit in Hc. unfold not_newline, is_newline.
  destruct (Ascii.eqb_spec c "010") as [->|_]; [discriminate|].
  destruct (Ascii.eqb_spec c "013") as [->|_]; [discriminate|reflexivity].
Qed.

(** X24. A chunk-log line is one line: when the model name and the user key
    contain no newline, the line is newline-free text followed by a single
    line feed, whatever the fragment contains. *)
Theorem chunk_line_is_one_line (seq : nat) (text model : string)
    (user : option string) :
  sall not_newline model = true ->
  sall not_newline (Py.or_empty user) = true ->
  exists body,
    chunk_line seq text model user = body +:+ nl
    /\ sall not_newline body = true.
Proof.
  intros Hm Hu.
  exists ("model=" +:+ model +:+ " | user=" +:+ Py.or_empty user
          +:+ " | seq=" +:+ Py.dec (N.of_nat seq) +:+ " | " +:+ flatten_text text).
  split.
  - unfold chunk_line. now rewrite !app_assoc_s.
  - rewrite !sall_app, Hm, Hu, flatten_no_newline.
    rewrite (all_digits_no_newline (Py.dec (N.of_nat seq)))
      by (unfold Py.dec; now apply dec_aux_digits).
    reflexivity.
Qed.

Lemma chunk_line_is_one_line_witness :
  exists body,
    chunk_line 7 ("two" +:+ nl +:+ "lines ") "gpt" (Some "15551234567")
    = body +:+ nl
    /\ sall not_newline body = true.
Proof.
  apply (chunk_line_is_one_line 7 ("two" +:+ nl +:+ "lines ") "gpt"
           (Some "15551234567")); reflexivity.
Defined.

Lemma take_preserves p n s : sall p s = true -> sall p (Py.take n s) = true.
Proof.
  revert s. induction n as [|n IH]; intros [|c s]; cbn [Py.take sall]; try reflexivity.
  intros [-> Hs]%andb_true_iff. now rewrite IH.
Qed.

Lemma concat_preserves p sep parts :
  sall p sep = true -> Forall (fun part => sall p part = true) parts ->
  sall p (String.concat sep parts) = true.
Proof.
  intros Hsep Hparts. induction Hparts as [|x xs Hx Hxs IH]; [reflexivity|].
  cbn [String.concat]. destruct xs as [|y ys]; [exact Hx|].
  change (sall p (x +:+ sep +:+ String.concat sep (y :: ys)) = true).
  now rewrite !sall_app, Hx, Hsep, IH.
Qed.

(** X25. The row of a success-log line contains no newline whenever no role
    does: contents are flattened, roles are only trimmed. *)
Theorem success_row_is_one_line (messages : list (gmap string string)) :
  Forall (fun m => sall not_newline (Py.or_empty (m !! "role")) = true) messages ->
  sall not_newline (success_row (Some messages)) = true.
Proof.
  intros Hroles.
  assert (Hrow : success_row (Some messages)
                 = (if 1000 <? String.length (flattened_rows messages)
                    then Py.take 1000 (flattened_rows messages) +:+ "..."
                    else flattened_rows messages))
    by (destruct messages; reflexivity).
  rewrite Hrow.
  assert (Hflat : sall not_newline (flattened_rows messages) = true).
  { unfold flattened_rows, Py.join. apply concat_preserves; [reflexivity|].
    apply Forall_map. eapply Forall_impl; [exact Hroles|].
    intros m Hm. cbn beta. unfold message_part, Py.strip.
    rewrite !sall_app, flatten_no_newline.
    rewrite (rstrip_preserves _ _ (lstrip_preserves _ _ Hm)). reflexivity. }
  destruct (1000 <? String.length (flattened_rows messages)); [|exact Hflat].
  now rewrite sall_app, take_preserves.
Qed.

Lemma success_row_is_one_line_witness :
  sall not_newline
    (success_row (Some [ {[ "role" := "user";
                            "content" := "two" +:+ nl +:+ "lines" ]} ])) = true.
Proof.
  apply success_row_is_one_line. constructor; [|constructor].
  vm_compute. reflexivity.
Defined.

Lemma sinks_are_best_effort_witness :
  chunk_log (snd (_append_chunk_log 0 "Hel" "gpt" None sample_relay))
  = [chunk_line 0 "Hel" "gpt" None].
Proof.
  destruct (sinks_are_best_effort sample_relay sample_messages (Some "Hello")
              true "gpt" None 0 "Hel") as (_ & _ & _ & _ & H & _).
  destruct (H eq_refl) as (_ & Hc & _). exact Hc.
Defined.

Lemma create_completion_outcomes_witness :
  fst (create_completion "gpt" (Ok sample_completion) sample_messages
         (Some TheCallLogger) None sample_relay) = Ok sample_completion
  /\ fst (create_completion "gpt" (Ok {| completion_choices := [Some None] |})
            sample_messages (Some TheCallLogger) None sample_relay)
     = Raise TypeError
  /\ fst (create_completion "gpt" (Ok {| completion_choices := [] |})
            sample_messages (Some TheCallLogger) None sample_relay)
     = Ok {| completion_choices := [] |}.
Proof.
  destruct (create_completion_outcomes "gpt" sample_messages TheCallLogger None
              sample_relay) as (_ & H1 & H2 & H3).
  split; [apply (H1 "Hello" [])|]. split; [apply (H2 [])|].
  apply (H3 {| completion_choices := [] |}). exact I.
Defined.

Lemma get_response_content_outcomes_witness :
  let res := get_response_content "gpt" (Ok sample_completion) sample_messages
               (Some TheCallLogger) None sample_relay in
  fst res = Ok (Some "Hello")
  /\ pending (snd res)
     = [TaskTurnLog sample_messages (Some "Hello") false "gpt" None].
Proof.
  cbv zeta.
  assert (Hres : fst (get_response_content "gpt" (Ok sample_completion)
                        sample_messages (Some TheCallLogger) None sample_relay)
                 = Ok (Some "Hello")) by (vm_compute; reflexivity).
  split; [exact Hres|].
  destruct (get_response_content_outcomes "gpt" sample_messages
              (Some TheCallLogger) None (Ok sample_completion) sample_relay)
    as (H & _).
  destruct (H (Some "Hello") Hres) as (text & c & choices & Htext & _ & _ & Hp).
  injection Htext as <-. exact Hp.
Defined.

